(** * 3CX BigQuery agent: the Electron main process (main.js)

    A shallow embedding of the IPC handlers of [main.js]: the persisted
    settings store, the two lazily built client handles, the table schema
    cache, the query agent and the result normalizer.  Everything outside
    the file -- the JavaScript engine's built-ins, the operating system
    dialogs, the Google client libraries and the remote services behind
    them -- is gathered in one record, [World], whose fields the handlers
    call where the source calls the library.  A handler call is run to its
    end before the next one starts: the interleaving of two calls at their
    [await]s is not modelled. *)

From Stdlib Require Import ZArith Ascii String List Bool Lia.
From Stdlib Require Import Floats.SpecFloat.
From stdpp Require Import base option list strings gmap.
Import ListNotations.

Local Open Scope string_scope.
Local Open Scope list_scope.

(** ** JavaScript strings

    A string is held as its UTF-8 bytes.  Every needle the source compares
    against is ASCII, so prefix and substring tests on bytes agree with the
    tests on UTF-16 code units. *)

Module JsString.

(** The white space and line terminators that [String.prototype.trim]
    strips, as UTF-8 byte sequences: TAB, LF, VT, FF, CR, SP, U+00A0,
    U+1680, U+2000..U+200A, U+2028, U+2029, U+202F, U+205F, U+3000 and
    U+FEFF. *)
Definition ws1 (a : ascii) : bool :=
  let n := nat_of_ascii a in
  ((9 <=? n)%nat && (n <=? 13)%nat) || (n =? 32)%nat.

Definition ws2 (a b : ascii) : bool :=
  (nat_of_ascii a =? 194)%nat && (nat_of_ascii b =? 160)%nat.

Definition ws3 (a b c : ascii) : bool :=
  let x := nat_of_ascii a in
  let y := nat_of_ascii b in
  let z := nat_of_ascii c in
  ((x =? 225) && (y =? 154) && (z =? 128))%nat
  || ((x =? 226) && (y =? 128) &&
      (((128 <=? z) && (z <=? 138)) || (z =? 168) || (z =? 169) || (z =? 175)))%nat
  || ((x =? 226) && (y =? 129) && (z =? 159))%nat
  || ((x =? 227) && (y =? 128) && (z =? 128))%nat
  || ((x =? 239) && (y =? 187) && (z =? 191))%nat.

Fixpoint trimStart (s : list ascii) : list ascii :=
  match s with
  | a :: s1 =>
      if ws1 a then trimStart s1 else
      match s1 with
      | b :: s2 =>
          if ws2 a b then trimStart s2 else
          match s2 with
          | c :: s3 => if ws3 a b c then trimStart s3 else s
          | [] => s
          end
      | [] => s
      end
  | [] => []
  end.

(** The same scan from the end, on the reversed bytes: a white-space
    character of several bytes is met last byte first. *)
Fixpoint trimEndRev (r : list ascii) : list ascii :=
  match r with
  | c :: r1 =>
      if ws1 c then trimEndRev r1 else
      match r1 with
      | b :: r2 =>
          if ws2 b c then trimEndRev r2 else
          match r2 with
          | a :: r3 => if ws3 a b c then trimEndRev r3 else r
          | [] => r
          end
      | [] => r
      end
  | [] => []
  end.

Definition trim (s : string) : string :=
  string_of_list_ascii
    (rev (trimEndRev (rev (trimStart (list_ascii_of_string s))))).

Fixpoint startsWith (s needle : string) : bool :=
  match needle, s with
  | EmptyString, _ => true
  | String a n', String b s' => Ascii.eqb a b && startsWith s' n'
  | String _ _, EmptyString => false
  end.

Fixpoint includes (s needle : string) : bool :=
  startsWith s needle ||
  match s with
  | EmptyString => false
  | String _ s' => includes s' needle
  end.

(** A string is falsy exactly when it is empty. *)
Definition nonempty (s : string) : bool :=
  match s with EmptyString => false | String _ _ => true end.

End JsString.

(** ** JavaScript values *)

#[warnings="-register-all"]
Inductive JsVal : Type :=
| VUndefined
| VNull
| VBool (b : bool)
| VNumber (x : spec_float)          (* an IEEE 754 binary64 *)
| VBigInt (z : Z)
| VString (s : string)
| VDate (t : option Z)              (* time value in ms; [None] is NaN *)
| VArray (items : list JsVal)
| VObject (props : list (string * JsVal)).

(** Outcome of an expression that may throw; [Throw m] carries the
    [message] of the thrown error. *)
Inductive Result (A : Type) : Type :=
| Ok (a : A)
| Throw (message : string).
Arguments Ok {A} a.
Arguments Throw {A} message.

Definition result_map {A B} (f : A -> B) (r : Result A) : Result B :=
  match r with Ok a => Ok (f a) | Throw m => Throw m end.

Definition typeof (v : JsVal) : string :=
  match v with
  | VUndefined => "undefined"
  | VNull => "object"
  | VBool _ => "boolean"
  | VNumber _ => "number"
  | VBigInt _ => "bigint"
  | VString _ => "string"
  | VDate _ | VArray _ | VObject _ => "object"
  end.

Definition instanceof_Date (v : JsVal) : bool :=
  match v with VDate _ => true | _ => false end.

Definition is_undefined (v : JsVal) : bool :=
  match v with VUndefined => true | _ => false end.

Definition is_null (v : JsVal) : bool :=
  match v with VNull => true | _ => false end.

(** ToBoolean. *)
Definition truthy (v : JsVal) : bool :=
  match v with
  | VUndefined | VNull => false
  | VBool b => b
  | VNumber (S754_zero _) | VNumber S754_nan => false
  | VNumber _ => true
  | VBigInt z => negb (z =? 0)%Z
  | VString s => JsString.nonempty s
  | VDate _ | VArray _ | VObject _ => true
  end.

Fixpoint own_prop (props : list (string * JsVal)) (k : string) : JsVal :=
  match props with
  | [] => VUndefined
  | (k', v) :: rest => if String.eqb k' k then v else own_prop rest k
  end.

(** [v.k] for a property name [k] that no built-in prototype defines (the
    source reads [type], [client_email], [clientId], [clientSecret] and
    [value]): an own property of a plain object, [undefined] on every
    other value, and a TypeError on [null] and [undefined], with the
    message V8 gives it. *)
Definition get_prop (v : JsVal) (k : string) : Result JsVal :=
  match v with
  | VUndefined =>
      Throw ("Cannot read properties of undefined (reading '" ++ k ++ "')")
  | VNull =>
      Throw ("Cannot read properties of null (reading '" ++ k ++ "')")
  | VObject props => Ok (own_prop props k)
  | _ => Ok VUndefined
  end.

(** [Number(z)] for a BigInt: the binary64 nearest to [z], ties to even. *)
Definition Number_of_BigInt (z : Z) : spec_float :=
  binary_normalize 53 1024 z 0 false.

(** ** [Date.prototype.toISOString]

    The time value is a whole number of milliseconds since the epoch, at
    most 8.64e15 in absolute value; [None] stands for NaN, the time value
    of an invalid date, on which the method throws a RangeError.  The
    civil date is read off the day number in the proleptic Gregorian
    calendar; years outside 0..9999 are printed with a sign and six
    digits. *)

Module JsDate.

Local Open Scope Z_scope.

Definition digit (z : Z) : string :=
String (ascii_of_N (Z.to_N (48 + z mod 10))) "".

Fixpoint digits (n : nat) (z : Z) : string :=
match n with
| O => ""%string
| S n' => (digits n' (z / 10) ++ digit z)%string
end.

Definition msPerDay : Z := 86400000.

(** Year, month and day of the day number [day] (days since 1970-01-01). *)
Definition civil (day : Z) : Z * Z * Z :=
let z := day + 719468 in
let era := z / 146097 in
let doe := z - era * 146097 in
let yoe := (doe - doe / 1460 + doe / 36524 - doe / 146096) / 365 in
let doy := doe - (365 * yoe + yoe / 4 - yoe / 100) in
let mp := (5 * doy + 2) / 153 in
let d := doy - (153 * mp + 2) / 5 + 1 in
let m := if mp <? 10 then mp + 3 else mp - 9 in
let y := yoe + era * 400 + (if m <=? 2 then 1 else 0) in
(y, m, d).

Definition year_text (y : Z) : string :=
if (0 <=? y) && (y <=? 9999) then digits 4 y
else if y <? 0 then ("-" ++ digits 6 (- y))%string
else ("+" ++ digits 6 y)%string.

Definition iso (ms : Z) : string :=
let day := ms / msPerDay in
let t := ms mod msPerDay in
let '(y, m, d) := civil day in
(year_text y ++ "-" ++ digits 2 m ++ "-" ++ digits 2 d ++ "T"
   ++ digits 2 (t / 3600000) ++ ":" ++ digits 2 (t / 60000 mod 60) ++ ":"
   ++ digits 2 (t / 1000 mod 60) ++ "." ++ digits 3 (t mod 1000) ++ "Z")%string.

Definition toISOString (t : option Z) : Result string :=
match t with
| Some ms =>
    if Z.abs ms <=? 8640000000000000
    then Ok (iso ms)
    else Throw "Invalid time value"
| None => Throw "Invalid time value"
end.

End JsDate.

(** ** Plain objects

    The own enumerable string-keyed properties of an object, in creation
    order.  [Object.keys] and [Object.entries] list the keys that are array
    indices first, in ascending numeric order, and the other keys after
    them in creation order. *)

Module JsObject.
Section Properties.
Context {V : Type}.

Fixpoint set (k : string) (v : V) (o : list (string * V)) : list (string * V) :=
  match o with
  | [] => [(k, v)]
  | (k', v') :: rest =>
      if String.eqb k' k then (k, v) :: rest else (k', v') :: set k v rest
  end.

Fixpoint get (k : string) (o : list (string * V)) : option V :=
  match o with
  | [] => None
  | (k', v') :: rest => if String.eqb k' k then Some v' else get k rest
  end.

(** [o[k] = v] on an object created by a literal whose value [v] is an
    object: the key [__proto__] reaches the accessor inherited from
    [Object.prototype] and creates no own property. *)
Definition assign (k : string) (v : V) (o : list (string * V)) : list (string * V) :=
  if String.eqb k "__proto__" then o else set k v o.

Fixpoint digits_value (s : string) (acc : N) : option N :=
  match s with
  | EmptyString => Some acc
  | String a s' =>
      let n := N_of_ascii a in
      if (48 <=? n)%N && (n <=? 57)%N
      then digits_value s' (acc * 10 + (n - 48))%N
      else None
  end.

(** A canonical numeric string below 2^32 - 1. *)
Definition array_index (k : string) : option N :=
  match k with
  | EmptyString => None
  | String "0"%char EmptyString => Some 0%N
  | String "0"%char _ => None
  | _ =>
      match digits_value k 0 with
      | Some n => if (n <? 4294967295)%N then Some n else None
      | None => None
      end
  end.

Fixpoint insert_index (e : N * (string * V)) (l : list (N * (string * V)))
  : list (N * (string * V)) :=
  match l with
  | [] => [e]
  | e' :: rest =>
      if (fst e <=? fst e')%N then e :: l else e' :: insert_index e rest
  end.

Fixpoint index_entries (o : list (string * V)) : list (N * (string * V)) :=
  match o with
  | [] => []
  | (k, v) :: rest =>
      match array_index k with
      | Some n => insert_index (n, (k, v)) (index_entries rest)
      | None => index_entries rest
      end
  end.

Fixpoint named_entries (o : list (string * V)) : list (string * V) :=
  match o with
  | [] => []
  | (k, v) :: rest =>
      match array_index k with
      | Some _ => named_entries rest
      | None => (k, v) :: named_entries rest
      end
  end.

Definition entries (o : list (string * V)) : list (string * V) :=
  List.map snd (index_entries o) ++ named_entries o.

Definition keys (o : list (string * V)) : list string :=
  List.map fst (entries o).

Definition fromEntries (es : list (string * V)) : list (string * V) :=
  fold_left (fun o e => set (fst e) (snd e) o) es [].
End Properties.
End JsObject.

(** ** The collaborators of main.js *)

Module Field.
Record t := { name : string; type : string }.
End Field.

(** The part of a table's metadata the handlers read:
    [meta.schema?.fields]. *)
Module Metadata.
Record schema_t := { fields : option (list Field.t) }.
Record t := { schema : option schema_t }.
End Metadata.

Module Table.
Record t := { id : string }.
End Table.

(** [new google.auth.OAuth2(clientId, clientSecret, redirectUri)], with
    the credentials given to it by [setCredentials]. *)
Module OAuth2.
Record t := {
  clientId : JsVal;
  clientSecret : JsVal;
  redirectUri : string;
  credentials : option JsVal
}.
End OAuth2.

(** The three ways the source calls [new BigQuery(...)]. *)
Inductive BigQuery : Type :=
| BigQuery_credentials (projectId : string) (credentials : JsVal)
| BigQuery_authClient (projectId : string) (authClient : OAuth2.t)
| BigQuery_ambient (projectId : string).

Module GoogleGenerativeAI.
Record t := { apiKey : string }.
End GoogleGenerativeAI.

Module OpenDialog.
Record t := { canceled : bool; filePaths : list string }.
End OpenDialog.

(** What the process does to the outside: the dialogs it shows, the files
    it reads, the URLs it hands to the browser and the remote calls it
    makes, oldest first.  A call to the generative model is logged with
    the reply it got. *)
Inductive Event : Type :=
| ShowOpenDialog
| ReadFile (path : string)
| OpenExternal (url : string)
| GetToken (client : OAuth2.t) (code : string)
| GetTables (bq : BigQuery) (datasetId : string)
| GetMetadata (bq : BigQuery) (datasetId tableId : string)
| GenerateContent (ai : GoogleGenerativeAI.t) (model prompt : string)
                  (reply : Result string)
| Query (bq : BigQuery) (sql : string).

(** The engine, the operating system, the client libraries and the remote
    services.  A call that reaches outside the process is answered from
    the history of events so far, so the same call may be answered
    differently at different times. *)
Record World := {
  JSON_parse : string -> Result JsVal;
  JSON_stringify : JsVal -> Result string;
  dialog_showOpenDialog : list Event -> OpenDialog.t;
  fs_readFileSync : list Event -> string -> Result string;
  oauth2_generateAuthUrl : OAuth2.t -> string;
  oauth2_getToken : list Event -> OAuth2.t -> string -> Result JsVal;
  bq_getTables : list Event -> BigQuery -> string -> Result (list Table.t);
  bq_getMetadata : list Event -> BigQuery -> string -> string -> Result Metadata.t;
  bq_query : list Event -> BigQuery -> string -> Result (list (list (string * JsVal)));
  gemini_generateContent :
    list Event -> GoogleGenerativeAI.t -> string -> string -> Result string
}.

(** ** The state of the main process *)

Record State := {
  store : gmap string string;                       (* electron-store *)
  bigqueryClient : option BigQuery;
  geminiClient : option GoogleGenerativeAI.t;
  tableSchemaCache : list (string * list Field.t);
  trace : list Event
}.

Definition with_store (f : gmap string string -> gmap string string) (s : State) : State :=
  {| store := f (store s); bigqueryClient := bigqueryClient s;
     geminiClient := geminiClient s; tableSchemaCache := tableSchemaCache s;
     trace := trace s |}.

Definition with_bigqueryClient (c : option BigQuery) (s : State) : State :=
  {| store := store s; bigqueryClient := c;
     geminiClient := geminiClient s; tableSchemaCache := tableSchemaCache s;
     trace := trace s |}.

Definition with_geminiClient (c : option GoogleGenerativeAI.t) (s : State) : State :=
  {| store := store s; bigqueryClient := bigqueryClient s;
     geminiClient := c; tableSchemaCache := tableSchemaCache s;
     trace := trace s |}.

Definition with_tableSchemaCache
  (f : list (string * list Field.t) -> list (string * list Field.t)) (s : State) : State :=
  {| store := store s; bigqueryClient := bigqueryClient s;
     geminiClient := geminiClient s; tableSchemaCache := f (tableSchemaCache s);
     trace := trace s |}.

Definition with_event (e : Event) (s : State) : State :=
  {| store := store s; bigqueryClient := bigqueryClient s;
     geminiClient := geminiClient s; tableSchemaCache := tableSchemaCache s;
     trace := trace s ++ [e] |}.

(** ** Handlers as state transformers that may throw

    A thrown error leaves the writes made before it in place. *)

Definition M (A : Type) : Type := State -> Result A * State.

Definition ret {A} (a : A) : M A := fun s => (Ok a, s).

Definition throw {A} (message : string) : M A := fun s => (Throw message, s).

Definition bind {A B} (c : M A) (k : A -> M B) : M B :=
  fun s =>
    match c s with
    | (Ok a, s') => k a s'
    | (Throw m, s') => (Throw m, s')
    end.

Definition try_catch {A} (body : M A) (handler : string -> M A) : M A :=
  fun s =>
    match body s with
    | (Ok a, s') => (Ok a, s')
    | (Throw m, s') => handler m s'
    end.

Definition lift {A} (r : Result A) : M A := fun s => (r, s).

Definition gets {A} (f : State -> A) : M A := fun s => (Ok (f s), s).

Definition modify (f : State -> State) : M unit := fun s => (Ok tt, f s).

Declare Scope js_scope.
Delimit Scope js_scope with js.
Notation "'let*' x ':=' c 'in' k" := (bind c (fun x => k))
  (at level 10, x name, c at level 100, k at level 200) : js_scope.
Notation "c ';;;' k" := (bind c (fun _ => k))
  (at level 100, k at level 200, right associativity) : js_scope.
Local Open Scope js_scope.

(** [for (const x of xs) body(x)] *)
Fixpoint for_of {A} (xs : list A) (body : A -> M unit) : M unit :=
  match xs with
  | [] => ret tt
  | x :: rest => body x ;;; for_of rest body
  end.

(** [xs.map(f)] for an [f] that may throw. *)
Fixpoint map_result {A B} (f : A -> Result B) (xs : list A) : Result (list B) :=
  match xs with
  | [] => Ok []
  | x :: rest =>
      match f x with
      | Throw m => Throw m
      | Ok y =>
          match map_result f rest with
          | Throw m => Throw m
          | Ok ys => Ok (y :: ys)
          end
      end
  end.

(** [store.get(key)], [store.get(key, defaultValue)] and
    [store.set(key, value)]. *)
Definition store_get (key : string) : M (option string) :=
  gets (fun s => store s !! key).

Definition store_get_default (key defaultValue : string) : M string :=
  gets (fun s => default defaultValue (store s !! key)).

Definition store_set (key value : string) : M unit :=
  modify (with_store (insert key value)).

(** Truthiness of a string that may be [undefined]. *)
Definition truthy_string (o : option string) : bool :=
  match o with
  | Some s => JsString.nonempty s
  | None => false
  end.

(** The string itself, where the source has just tested it truthy. *)
Definition the_string (o : option string) : string := default "" o.

(** A template literal prints [undefined] for a missing value. *)
Definition template (o : option string) : string :=
  match o with
  | Some s => s
  | None => "undefined"
  end.

(** The fields of the settings form that [config:save] reads; [None] is a
    field the caller left out. *)
Module Config.
Record t := {
  projectId : option string;
  datasetId : option string;
  geminiKey : option string;
  authMethod : option string
}.
End Config.

(** ** main.js *)

Section Main.
Context (W : World).

(** The outside calls: each is answered by the world from the trace so
    far and is appended to the trace, whether it succeeds or not. *)

Definition showOpenDialog : M OpenDialog.t :=
  fun s => (Ok (dialog_showOpenDialog W (trace s)), with_event ShowOpenDialog s).

Definition readFileSync (path : string) : M string :=
  fun s => (fs_readFileSync W (trace s) path, with_event (ReadFile path) s).

Definition openExternal (url : string) : M unit :=
  modify (with_event (OpenExternal url)).

Definition getToken (client : OAuth2.t) (code : string) : M JsVal :=
  fun s => (oauth2_getToken W (trace s) client code, with_event (GetToken client code) s).

Definition getTables (bq : BigQuery) (datasetId : string) : M (list Table.t) :=
  fun s => (bq_getTables W (trace s) bq datasetId, with_event (GetTables bq datasetId) s).

Definition getMetadata (bq : BigQuery) (datasetId : string) (table : Table.t)
  : M Metadata.t :=
  fun s => (bq_getMetadata W (trace s) bq datasetId (Table.id table),
            with_event (GetMetadata bq datasetId (Table.id table)) s).

Definition query (bq : BigQuery) (sql : string) : M (list (list (string * JsVal))) :=
  fun s => (bq_query W (trace s) bq sql, with_event (Query bq sql) s).

Definition generateContent (ai : GoogleGenerativeAI.t) (model prompt : string)
  : M string :=
  fun s =>
    let reply := gemini_generateContent W (trace s) ai model prompt in
    (reply, with_event (GenerateContent ai model prompt reply) s).

(** *** IPC: config management *)

Definition config_load : M JsVal :=
  let* projectId := store_get_default "projectId" "" in
  let* datasetId := store_get_default "datasetId" "" in
  let* geminiKey := store_get_default "geminiKey" "" in
  let* authMethod := store_get_default "authMethod" "serviceAccount" in
  let* json := store_get "serviceAccountJson" in
  ret (VObject [("projectId", VString projectId);
                ("datasetId", VString datasetId);
                ("geminiKey", VString geminiKey);
                ("authMethod", VString authMethod);
                ("hasJsonKey", VBool (truthy_string json))]).

(** [if (field) store.set(key, f(field))] *)
Definition set_if_truthy (field : option string) (key : string)
  (f : string -> string) : M unit :=
  match field with
  | Some v => if JsString.nonempty v then store_set key (f v) else ret tt
  | None => ret tt
  end.

Definition config_save (config : Config.t) : M JsVal :=
  set_if_truthy (Config.projectId config) "projectId" JsString.trim ;;;
  set_if_truthy (Config.datasetId config) "datasetId" JsString.trim ;;;
  set_if_truthy (Config.geminiKey config) "geminiKey" JsString.trim ;;;
  set_if_truthy (Config.authMethod config) "authMethod" (fun v => v) ;;;
  modify (with_bigqueryClient None) ;;;
  modify (with_geminiClient None) ;;;
  modify (with_tableSchemaCache (fun _ => [])) ;;;
  ret (VObject [("ok", VBool true)]).

(** *** IPC: service account JSON upload *)

Definition not_service_account_message : string :=
  "Not a valid service account JSON file. Make sure you downloaded the right key.".

(** [x !== 'service_account'] *)
Definition is_string (v : JsVal) (s : string) : bool :=
  match v with
  | VString s' => String.eqb s' s
  | _ => false
  end.

Definition auth_pickJsonFile : M JsVal :=
  let* result := showOpenDialog in
  if OpenDialog.canceled result
     || (length (OpenDialog.filePaths result) =? 0)%nat
  then ret (VObject [("ok", VBool false)])
  else
    try_catch
      (let* raw := readFileSync (hd "" (OpenDialog.filePaths result)) in
       let* parsed := lift (JSON_parse W raw) in
       let* type := lift (get_prop parsed "type") in
       if negb (truthy type) || negb (is_string type "service_account")
       then ret (VObject [("ok", VBool false);
                          ("error", VString not_service_account_message)])
       else
         store_set "serviceAccountJson" raw ;;;
         store_set "authMethod" "serviceAccount" ;;;
         modify (with_bigqueryClient None) ;;;
         let* email := lift (get_prop parsed "client_email") in
         ret (VObject [("ok", VBool true); ("email", email)]))
      (fun message =>
         ret (VObject [("ok", VBool false);
                       ("error", VString ("Could not read file: " ++ message))])).

(** *** IPC: browser OAuth flow *)

Definition oob : string := "urn:ietf:wg:oauth:2.0:oob".

Definition new_OAuth2 (clientId clientSecret : JsVal) (redirectUri : string)
  : OAuth2.t :=
  {| OAuth2.clientId := clientId; OAuth2.clientSecret := clientSecret;
     OAuth2.redirectUri := redirectUri; OAuth2.credentials := None |}.

Definition setCredentials (client : OAuth2.t) (tokens : JsVal) : OAuth2.t :=
  {| OAuth2.clientId := OAuth2.clientId client;
     OAuth2.clientSecret := OAuth2.clientSecret client;
     OAuth2.redirectUri := OAuth2.redirectUri client;
     OAuth2.credentials := Some tokens |}.

Definition oauth_not_configured_message : string :=
  "OAuth client credentials not configured. Add your OAuth2 Client ID and Secret in settings, or use a service account JSON instead.".

Definition auth_browserLogin : M JsVal :=
  let* clientId := store_get_default "oauthClientId" "" in
  let* clientSecret := store_get_default "oauthClientSecret" "" in
  if negb (JsString.nonempty clientId) || negb (JsString.nonempty clientSecret)
  then ret (VObject [("ok", VBool false);
                     ("error", VString oauth_not_configured_message)])
  else
    let oauth2Client := new_OAuth2 (VString clientId) (VString clientSecret) oob in
    let authUrl := oauth2_generateAuthUrl W oauth2Client in
    openExternal authUrl ;;;
    store_set "authMethod" "browser" ;;;
    let* pending :=
      lift (JSON_stringify W (VObject [("clientId", VString clientId);
                                       ("clientSecret", VString clientSecret)])) in
    store_set "pendingOauthClient" pending ;;;
    ret (VObject [("ok", VBool true); ("authUrl", VString authUrl)]).

Definition auth_submitOauthCode (code : string) : M JsVal :=
  try_catch
    (let* raw := store_get_default "pendingOauthClient" "{}" in
     let* pending := lift (JSON_parse W raw) in
     let* clientId := lift (get_prop pending "clientId") in
     let* clientSecret := lift (get_prop pending "clientSecret") in
     let oauth2Client := new_OAuth2 clientId clientSecret oob in
     let* tokens := getToken oauth2Client (JsString.trim code) in
     let* tokensJson := lift (JSON_stringify W tokens) in
     store_set "oauthTokens" tokensJson ;;;
     store_set "authMethod" "browser" ;;;
     modify (with_bigqueryClient None) ;;;
     ret (VObject [("ok", VBool true)]))
    (fun message =>
       ret (VObject [("ok", VBool false);
                     ("error", VString ("Token exchange failed: " ++ message))])).

(** *** BigQuery client factory *)

Definition getBigQueryClient : M BigQuery :=
  let* cached := gets bigqueryClient in
  match cached with
  | Some client => ret client
  | None =>
      let* projectId := store_get "projectId" in
      let* authMethod := store_get_default "authMethod" "serviceAccount" in
      match projectId with
      | Some projectId =>
          if negb (JsString.nonempty projectId)
          then throw "No Google Cloud Project ID configured. Go to Settings."
          else
            if String.eqb authMethod "serviceAccount" then
              let* jsonRaw := store_get "serviceAccountJson" in
              if negb (truthy_string jsonRaw)
              then throw "No service account JSON uploaded. Go to Settings and upload your key file."
              else
                let* credentials := lift (JSON_parse W (the_string jsonRaw)) in
                let client := BigQuery_credentials projectId credentials in
                modify (with_bigqueryClient (Some client)) ;;;
                ret client
            else if String.eqb authMethod "browser" then
              let* tokensRaw := store_get "oauthTokens" in
              if negb (truthy_string tokensRaw)
              then throw "Browser auth not completed. Go to Settings and sign in."
              else
                let* pendingRaw := store_get_default "pendingOauthClient" "{}" in
                let* pending := lift (JSON_parse W pendingRaw) in
                let* clientId := lift (get_prop pending "clientId") in
                let* clientSecret := lift (get_prop pending "clientSecret") in
                let oauth2Client := new_OAuth2 clientId clientSecret oob in
                let* tokens := lift (JSON_parse W (the_string tokensRaw)) in
                let client :=
                  BigQuery_authClient projectId (setCredentials oauth2Client tokens) in
                modify (with_bigqueryClient (Some client)) ;;;
                ret client
            else
              let client := BigQuery_ambient projectId in
              modify (with_bigqueryClient (Some client)) ;;;
              ret client
      | None => throw "No Google Cloud Project ID configured. Go to Settings."
      end
  end.

(** *** Gemini client factory *)

Definition getGeminiClient : M GoogleGenerativeAI.t :=
  let* cached := gets geminiClient in
  match cached with
  | Some client => ret client
  | None =>
      let* key := store_get "geminiKey" in
      if negb (truthy_string key)
      then throw "No Gemini API key configured. Go to Settings and add your key."
      else
        let client := {| GoogleGenerativeAI.apiKey := the_string key |} in
        modify (with_geminiClient (Some client)) ;;;
        ret client
  end.

(** *** The schema walk

    [meta.schema?.fields || []] and the loop over the listed tables,
    which both [agent:testConnection] and [agent:query] run. *)

Definition schema_fields (meta : Metadata.t) : list Field.t :=
  match Metadata.schema meta with
  | Some schema => default [] (Metadata.fields schema)
  | None => []
  end.

Definition primeSchemaCache (bq : BigQuery) (datasetId : string)
  (tables : list Table.t) : M unit :=
  for_of tables (fun table =>
    let* meta := getMetadata bq datasetId table in
    modify (with_tableSchemaCache
              (JsObject.assign (Table.id table) (schema_fields meta)))).

(** *** IPC: connection test *)

Definition agent_testConnection : M JsVal :=
  try_catch
    (let* bq := getBigQueryClient in
     let* datasetId := store_get "datasetId" in
     if negb (truthy_string datasetId)
     then ret (VObject [("ok", VBool false);
                        ("error", VString "No BigQuery dataset configured. Go to Settings.")])
     else
       let* tables := getTables bq (the_string datasetId) in
       let tableNames := List.map (fun t => VString (Table.id t)) tables in
       primeSchemaCache bq (the_string datasetId) tables ;;;
       ret (VObject [("ok", VBool true); ("tables", VArray tableNames)]))
    (fun message =>
       ret (VObject [("ok", VBool false); ("error", VString message)])).

(** *** Result normalizer *)

(** [typeof v === 'bigint'], [v instanceof Date] and [v.value] (read
    only where [v] is neither [null] nor [undefined]). *)
Definition as_bigint (v : JsVal) : option Z :=
  match v with VBigInt z => Some z | _ => None end.

Definition as_Date (v : JsVal) : option (option Z) :=
  match v with VDate t => Some t | _ => None end.

Definition value_of (v : JsVal) : JsVal :=
  match get_prop v "value" with
  | Ok x => x
  | Throw _ => VUndefined
  end.

Definition serializeValue (v : JsVal) : Result JsVal :=
  if is_null v || is_undefined v then Ok VNull
  else
    match as_bigint v with
    | Some z => Ok (VNumber (Number_of_BigInt z))
    | None =>
        match as_Date v with
        | Some t => result_map VString (JsDate.toISOString t)
        | None =>
            if String.eqb (typeof v) "object" && negb (is_undefined (value_of v))
            then Ok (value_of v)
            else if String.eqb (typeof v) "object"
            then result_map VString (JSON_stringify W v)
            else Ok v
        end
    end.

(** *** IPC: natural language query *)

Definition nl : string := String (ascii_of_nat 10) "".

Definition schemaText (projectId : option string) (datasetId : string)
  (cache : list (string * list Field.t)) : string :=
  String.concat (nl ++ nl)%string
    (List.map
       (fun entry : string * list Field.t =>
          let tableName := fst entry in
          let fields := snd entry in
          let cols :=
            String.concat nl
              (List.map
                 (fun f => ("  " ++ Field.name f ++ " (" ++ Field.type f ++ ")")%string)
                 fields) in
          ("Table: `" ++ template projectId ++ "." ++ datasetId ++ "."
             ++ tableName ++ "`" ++ nl ++ cols)%string)
       (JsObject.entries cache)).

Definition systemPrompt (projectId : option string) (datasetId : string)
  (schema userQuestion : string) : string :=
  ("You are a BigQuery SQL expert for a 3CX phone system analytics database.
Given the following table schemas, write a valid BigQuery SQL query that answers the user's question.

SCHEMA:
" ++ schema ++ "

RULES:
- Return ONLY the SQL query, nothing else — no markdown, no explanation, no backticks.
- Use fully-qualified table names: `" ++ template projectId ++ "." ++ datasetId ++ ".TableName`
- Use STANDARD SQL (BigQuery default). DATE functions: CURRENT_DATE(), DATE_SUB(), FORMAT_DATE().
- TIMESTAMP columns: use TIMESTAMP_TRUNC() for grouping by day/hour.
- Limit results to 200 rows maximum unless the question asks for all data.
- If the question cannot be answered from the schema, respond with exactly: CANNOT_ANSWER

USER QUESTION: " ++ userQuestion)%string.

Definition cannot_answer_message : string :=
  "I couldn't find a way to answer that from the available 3CX data. Try rephrasing, or ask about calls, queues, extensions, or call durations.".

(** Step 1 of [agent:query]: discover the schema if it is not cached. *)
Definition ensureSchema (bq : BigQuery) (datasetId : string) : M unit :=
  let* cache := gets tableSchemaCache in
  if (length (JsObject.keys cache) =? 0)%nat
  then
    let* tables := getTables bq datasetId in
    primeSchemaCache bq datasetId tables
  else ret tt.

Definition serializeRow (row : list (string * JsVal)) : Result JsVal :=
  result_map (fun es => VObject (JsObject.fromEntries es))
    (map_result
       (fun kv => result_map (fun v' => (fst kv, v')) (serializeValue (snd kv)))
       (JsObject.entries row)).

Definition agent_query (userQuestion : string) : M JsVal :=
  try_catch
    (let* bq := getBigQueryClient in
     let* ai := getGeminiClient in
     let* datasetId := store_get "datasetId" in
     let* projectId := store_get "projectId" in
     if negb (truthy_string datasetId)
     then throw "No BigQuery dataset configured."
     else
       let datasetId := the_string datasetId in
       ensureSchema bq datasetId ;;;
       let* cache := gets tableSchemaCache in
       let schema := schemaText projectId datasetId cache in
       let* text :=
         generateContent ai "gemini-1.5-flash"
           (systemPrompt projectId datasetId schema userQuestion) in
       let sql := JsString.trim text in
       if String.eqb sql "CANNOT_ANSWER"
       then ret (VObject [("ok", VBool true);
                          ("sql", VNull);
                          ("rows", VArray []);
                          ("columns", VArray []);
                          ("message", VString cannot_answer_message)])
       else
         let* rows := query bq sql in
         let columns :=
           match rows with
           | row :: _ => JsObject.keys row
           | [] => []
           end in
         let* serialized := lift (map_result serializeRow rows) in
         ret (VObject [("ok", VBool true);
                       ("sql", VString sql);
                       ("rows", VArray serialized);
                       ("columns", VArray (List.map VString columns));
                       ("message", VNull)]))
    (fun message =>
       ret (VObject [("ok", VBool false);
                     ("error", VString message);
                     ("sql", VNull)])).

(** *** IPC: open external links *)

Definition shell_openExternal (url : string) : M JsVal :=
  (if JsString.startsWith url "https://" then openExternal url else ret tt) ;;;
  ret VUndefined.

End Main.

(** ** The normalizer as a list of rules

    The rules of the result normalizer in the order the specification gives
    them; a value gets the result of the first rule that applies to it.
    [claimed] reads the wrapper rule as the specification words it, an
    object exposing a defined scalar [value]; [amended] asks only that
    [value] be defined. *)

Module Normalizer.

Inductive Rule : Type :=
| NullRule | BigIntRule | DateRule | WrapperRule | ObjectRule | ScalarRule.

Definition order : list Rule :=
  [NullRule; BigIntRule; DateRule; WrapperRule; ObjectRule; ScalarRule].

Definition is_object (v : JsVal) : bool :=
  match v with
  | VDate _ | VArray _ | VObject _ => true
  | _ => false
  end.

Definition is_scalar (v : JsVal) : bool :=
  match v with
  | VNull | VBool _ | VNumber _ | VBigInt _ | VString _ => true
  | _ => false
  end.

Definition is_defined (v : JsVal) : bool := negb (is_undefined v).

Definition applies (wrapped : JsVal -> bool) (r : Rule) (v : JsVal) : bool :=
  match r with
  | NullRule => is_null v || is_undefined v
  | BigIntRule => match v with VBigInt _ => true | _ => false end
  | DateRule => instanceof_Date v
  | WrapperRule => is_object v && wrapped (value_of v)
  | ObjectRule => is_object v
  | ScalarRule => true
  end.

Definition result (W : World) (r : Rule) (v : JsVal) : Result JsVal :=
  match r with
  | NullRule => Ok VNull
  | BigIntRule =>
      match v with
      | VBigInt z => Ok (VNumber (Number_of_BigInt z))
      | _ => Ok v
      end
  | DateRule =>
      match v with
      | VDate t => result_map VString (JsDate.toISOString t)
      | _ => Ok v
      end
  | WrapperRule => Ok (value_of v)
  | ObjectRule => result_map VString (JSON_stringify W v)
  | ScalarRule => Ok v
  end.

Definition first_match (wrapped : JsVal -> bool) (v : JsVal) : option Rule :=
  List.find (fun r => applies wrapped r v) order.

Definition normalize (W : World) (wrapped : JsVal -> bool) (v : JsVal)
  : Result JsVal :=
  match first_match wrapped v with
  | Some r => result W r v
  | None => Ok v
  end.

Definition claimed (W : World) : JsVal -> Result JsVal := normalize W is_scalar.

Definition amended (W : World) : JsVal -> Result JsVal := normalize W is_defined.

End Normalizer.

(** The settings a [config:save] call may write, each with the field of
    the form it is written from. *)
Definition supplied (config : Config.t) : list (string * option string) :=
  [("projectId", Config.projectId config);
   ("datasetId", Config.datasetId config);
   ("geminiKey", Config.geminiKey config);
   ("authMethod", Config.authMethod config)].

(** The store after the four guarded writes of [config:save]. *)
Definition write_if (field : option string) (key : string)
  (f : string -> string) (m : gmap string string) : gmap string string :=
  if truthy_string field then <[key := f (the_string field)]> m else m.

Definition saved_store (config : Config.t) (m : gmap string string)
  : gmap string string :=
  write_if (Config.authMethod config) "authMethod" (fun v => v)
    (write_if (Config.geminiKey config) "geminiKey" JsString.trim
       (write_if (Config.datasetId config) "datasetId" JsString.trim
          (write_if (Config.projectId config) "projectId" JsString.trim m))).

(** The [type] a parsed key file declares ([undefined] when it declares
    none), and the message [auth:pickJsonFile] rejects a document with:
    reading [type] off [null] throws, and the handler reports what it
    caught. *)
Definition declared_type (doc : JsVal) : JsVal :=
match doc with
| VObject props => own_prop props "type"
| _ => VUndefined
end.

Definition rejection_message (doc : JsVal) : string :=
match get_prop doc "type" with
| Throw message => "Could not read file: " ++ message
| Ok _ => not_service_account_message
end.

(** The [ok] field of a handler's reply. *)
Definition reply_ok (reply : Result JsVal) : JsVal :=
match reply with
| Ok (VObject props) => own_prop props "ok"
| _ => VUndefined
end.

(** Writing entries into the cache one after the other, as the schema walk
    does, and the events of the walk. *)
Definition write_entries (written cache : list (string * list Field.t))
  : list (string * list Field.t) :=
fold_left (fun c e => JsObject.assign (fst e) (snd e) c) written cache.

Definition is_metadata (e : Event) : bool :=
match e with GetMetadata _ _ _ => true | _ => false end.

Definition is_schema_event (e : Event) : bool :=
match e with GetTables _ _ | GetMetadata _ _ _ => true | _ => false end.

(** An entry that a metadata fetch of this world has answered. *)
Definition fetched (W : World) (bq : BigQuery) (datasetId : string)
  (e : string * list Field.t) : Prop :=
exists history meta,
  bq_getMetadata W history bq datasetId (fst e) = Ok meta
  /\ snd e = schema_fields meta.

(** The message of a thrown error, if one was thrown. *)
Definition thrown {A} (r : Result A) : option string :=
match r with Ok _ => None | Throw message => Some message end.

(** The metadata fetches for [tables], as events. *)
Definition metadata_calls (bq : BigQuery) (datasetId : string)
  (tables : list Table.t) : list Event :=
List.map (fun table => GetMetadata bq datasetId (Table.id table)) tables.

(** What the metadata fetch of the table at position [i] of the listing
    answers when the fetches of the tables before it have been made;
    [history] is the history at the moment the walk begins. *)
Definition metadata_at (W : World) (bq : BigQuery) (datasetId : string)
  (history : list Event) (tables : list Table.t) (i : nat)
  : option (Result Metadata.t) :=
match tables !! i with
| Some table =>
    Some (bq_getMetadata W (history ++ metadata_calls bq datasetId (take i tables))
            bq datasetId (Table.id table))
| None => None
end.

(** A walk over [tables] that took the cache from [before] to [after].
    [metas] are the answers for the tables listed before the failing one
    (for all tables when nothing failed): each of them is the successful
    answer of the fetch at its position, the fetch at the next position is
    the one that threw [failure], and [after] is [before] with the entries
    of exactly those tables assigned on top, in listing order. *)
Definition walked (W : World) (bq : BigQuery) (datasetId : string)
  (history : list Event) (tables : list Table.t) (failure : option string)
  (before after : list (string * list Field.t)) : Prop :=
exists metas : list Metadata.t,
  (forall i meta,
      metas !! i = Some meta ->
      metadata_at W bq datasetId history tables i = Some (Ok meta))
  /\ after
     = write_entries
         (zip_with (fun table meta => (Table.id table, schema_fields meta))
            tables metas)
         before
  /\ match failure with
     | None => length metas = length tables
     | Some message =>
         metadata_at W bq datasetId history tables (length metas)
         = Some (Throw message)
     end.

Definition is_ok {A} (r : Result A) : bool :=
match r with Ok _ => true | Throw _ => false end.

(** The replies of [agent:query] that carry no rows. *)
Definition cannot_answer_reply : JsVal :=
VObject [("ok", VBool true);
         ("sql", VNull);
         ("rows", VArray []);
         ("columns", VArray []);
         ("message", VString cannot_answer_message)].

Definition error_reply (message : string) : JsVal :=
VObject [("ok", VBool false); ("error", VString message); ("sql", VNull)].

Definition is_query (e : Event) : bool :=
match e with Query _ _ => true | _ => false end.

(** Two facts about the world that [auth:submitOauthCode] leans on when no
    sign-in was started: [JSON.parse] reads the text [{}] as the object
    without properties, and the token endpoint turns down an exchange that
    names no client. *)
Definition parses_empty_object (W : World) : Prop :=
JSON_parse W "{}" = Ok (VObject []).

Definition rejects_anonymous_exchange (W : World) : Prop :=
forall (history : list Event) (client : OAuth2.t) (code : string),
  OAuth2.clientId client = VUndefined ->
  exists message, oauth2_getToken W history client code = Throw message.

(** The events a handler call added to the trace. *)
Definition new_events (before after : State) : list Event :=
  drop (length (trace before)) (trace after).

Definition is_listing (e : Event) : bool :=
  match e with GetTables _ _ => true | _ => false end.

Definition listings (evs : list Event) : nat :=
  length (List.filter is_listing evs).

(** ** Example worlds

    Small concrete worlds on which the handlers can be run.  [JSON.parse]
    and [JSON.stringify] are given on the documents and values the
    examples use, with the results the engine gives on them. *)

Module Example.

Definition dq : string := String (ascii_of_nat 34) "".

Definition quoted (s : string) : string := (dq ++ s ++ dq)%string.

(** [{"type":"service_account","client_email":"agent@acme.iam.gserviceaccount.com"}] *)
Definition key_file : string :=
  ("{" ++ quoted "type" ++ ":" ++ quoted "service_account" ++ ","
     ++ quoted "client_email" ++ ":" ++ quoted "agent@acme.iam.gserviceaccount.com"
     ++ "}")%string.

Definition key_doc : JsVal :=
  VObject [("type", VString "service_account");
           ("client_email", VString "agent@acme.iam.gserviceaccount.com")].

(** [{"type":"authorized_user"}] *)
Definition user_file : string :=
  ("{" ++ quoted "type" ++ ":" ++ quoted "authorized_user" ++ "}")%string.

Definition user_doc : JsVal := VObject [("type", VString "authorized_user")].

(** [{"value":{"unit":"ms"}}] *)
Definition nested_wrapper : JsVal :=
  VObject [("value", VObject [("unit", VString "ms")])].

Definition nested_wrapper_text : string :=
  ("{" ++ quoted "value" ++ ":{" ++ quoted "unit" ++ ":" ++ quoted "ms" ++ "}}")%string.

Definition parse (text : string) : Result JsVal :=
  if String.eqb text "null" then Ok VNull
  else if String.eqb text "{}" then Ok (VObject [])
  else if String.eqb text key_file then Ok key_doc
  else if String.eqb text user_file then Ok user_doc
  else Throw "Unexpected token".

Definition stringify (v : JsVal) : Result string :=
  match v with
  | VObject [("value", VObject [("unit", VString "ms")])] => Ok nested_wrapper_text
  | VObject [("clientId", VString a); ("clientSecret", VString b)] =>
      Ok ("{" ++ quoted "clientId" ++ ":" ++ quoted a ++ ","
            ++ quoted "clientSecret" ++ ":" ++ quoted b ++ "}")%string
  | _ => Throw "not needed by the examples"
  end.

Definition calls : Table.t := {| Table.id := "calls" |}.
Definition queues : Table.t := {| Table.id := "queues" |}.

Definition calls_fields : list Field.t :=
  [ {| Field.name := "direction"; Field.type := "STRING" |};
    {| Field.name := "timestamp"; Field.type := "TIMESTAMP" |} ].

Definition calls_meta : Metadata.t :=
  {| Metadata.schema := Some {| Metadata.fields := Some calls_fields |} |}.

(** A world whose pieces are given one by one: the file chooser's
    answer, the chosen file's text, the token endpoint's answer, the
    dataset's tables, the answer to a metadata fetch, and the model's
    reply. *)
Definition world
  (chosen : OpenDialog.t) (file : Result string) (token : Result JsVal)
  (tables : Result (list Table.t)) (meta : string -> Result Metadata.t)
  (reply : Result string) : World :=
  {| JSON_parse := parse;
     JSON_stringify := stringify;
       dialog_showOpenDialog := fun _ => chosen;
     fs_readFileSync := fun _ _ => file;
     oauth2_generateAuthUrl := fun _ => "https://accounts.google.com/o/oauth2/v2/auth";
     oauth2_getToken := fun _ _ _ => token;
     bq_getTables := fun _ _ _ => tables;
     bq_getMetadata := fun _ _ _ tableId => meta tableId;
     bq_query := fun _ _ _ => Ok [];
     gemini_generateContent := fun _ _ _ _ => reply |}.

Definition nothing_chosen : OpenDialog.t :=
  {| OpenDialog.canceled := true; OpenDialog.filePaths := [] |}.

Definition chosen (path : string) : OpenDialog.t :=
  {| OpenDialog.canceled := false; OpenDialog.filePaths := [path] |}.

(** The dataset lists [calls] and [queues]; the metadata of [calls] can
    be fetched, the fetch for [queues] fails. *)
Definition half_listed : World :=
  world nothing_chosen (Throw "ENOENT") (Throw "invalid_request")
    (Ok [calls; queues])
    (fun tableId =>
       if String.eqb tableId "calls" then Ok calls_meta else Throw "Not found: Table queues")
    (Ok "CANNOT_ANSWER").

(** A dataset that has no table yet. *)
Definition empty_dataset : World :=
  world nothing_chosen (Throw "ENOENT") (Throw "invalid_request")
    (Ok []) (fun _ => Throw "Not found") (Ok "SELECT 1").

(** The user picks a file with the given text. *)
Definition upload (text : string) : World :=
  world (chosen "/home/user/key.json") (Ok text) (Throw "invalid_request")
    (Ok [calls]) (fun _ => Ok calls_meta) (Ok "CANNOT_ANSWER").

(** The model answers with the given text. *)
Definition model_says (text : string) : World :=
  world nothing_chosen (Throw "ENOENT") (Throw "invalid_request")
    (Ok [calls]) (fun _ => Ok calls_meta) (Ok text).

Definition state (settings : list (string * string))
  (bq : option BigQuery) (cache : list (string * list Field.t)) : State :=
  {| store := list_to_map settings;
     bigqueryClient := bq;
     geminiClient := None;
     tableSchemaCache := cache;
     trace := [] |}.

End Example.

(** ** The IPC surface

    The channels that [preload.js] exposes to the renderer, each with the
    argument it carries, and the handler [main.js] registers for it.  A
    sequence of calls is run one call after the other; a handler that
    throws rejects its call and leaves the state it reached. *)

Inductive Call : Type :=
| Invoke_config_load
| Invoke_config_save (config : Config.t)
| Invoke_auth_pickJsonFile
| Invoke_auth_browserLogin
| Invoke_auth_submitOauthCode (code : string)
| Invoke_agent_testConnection
| Invoke_agent_query (userQuestion : string)
| Invoke_shell_openExternal (url : string).

Definition handle (W : World) (call : Call) : M JsVal :=
match call with
| Invoke_config_load => config_load
| Invoke_config_save config => config_save config
| Invoke_auth_pickJsonFile => auth_pickJsonFile W
| Invoke_auth_browserLogin => auth_browserLogin W
| Invoke_auth_submitOauthCode code => auth_submitOauthCode W code
| Invoke_agent_testConnection => agent_testConnection W
| Invoke_agent_query userQuestion => agent_query W userQuestion
| Invoke_shell_openExternal url => shell_openExternal url
end.

Fixpoint run_calls (W : World) (calls : list Call) (st : State) : State :=
match calls with
| [] => st
| call :: rest => run_calls W rest (snd (handle W call st))
end.

(** The settings that some handler writes. *)
Definition written_keys : list string :=
["projectId"; "datasetId"; "geminiKey"; "authMethod";
 "serviceAccountJson"; "pendingOauthClient"; "oauthTokens"].

(** The project a client was built for. *)
Definition client_projectId (bq : BigQuery) : string :=
match bq with
| BigQuery_credentials projectId _ => projectId
| BigQuery_authClient projectId _ => projectId
| BigQuery_ambient projectId => projectId
end.

(** ** renderer.js: escaping text for markup *)

Module Renderer.

Definition quot : ascii := ascii_of_nat 34.

(** [s.replace(/c/g, replacement)] for a pattern of one character. *)
Fixpoint replaceAll (c : ascii) (replacement s : string) : string :=
  match s with
  | EmptyString => EmptyString
  | String a s' =>
      if Ascii.eqb a c
      then (replacement ++ replaceAll c replacement s')%string
      else String a (replaceAll c replacement s')
  end.

Definition escapeHtml (str : string) : string :=
  replaceAll "'" "&#39;"
    (replaceAll quot "&quot;"
       (replaceAll ">" "&gt;"
          (replaceAll "<" "&lt;"
             (replaceAll "&" "&amp;" str)))).

(** What the five passes do to one character. *)
Definition escape_char (a : ascii) : string :=
  if Ascii.eqb a "&" then "&amp;"
  else if Ascii.eqb a "<" then "&lt;"
  else if Ascii.eqb a ">" then "&gt;"
  else if Ascii.eqb a quot then "&quot;"
  else if Ascii.eqb a "'" then "&#39;"
  else String a EmptyString.

Fixpoint has_char (c : ascii) (s : string) : bool :=
  match s with
  | EmptyString => false
  | String a s' => Ascii.eqb a c || has_char c s'
  end.

(** Reading the five entities back.  The source has no such function; it
    is here to show that escaping loses nothing. *)
Fixpoint decode_entities (s : string) : string :=
  match s with
  | String "&" (String "a" (String "m" (String "p" (String ";" r)))) =>
      String "&" (decode_entities r)
  | String "&" (String "l" (String "t" (String ";" r))) =>
      String "<" (decode_entities r)
  | String "&" (String "g" (String "t" (String ";" r))) =>
      String ">" (decode_entities r)
  | String "&" (String "q" (String "u" (String "o" (String "t" (String ";" r))))) =>
      String quot (decode_entities r)
  | String "&" (String "#" (String "3" (String "9" (String ";" r)))) =>
      String "'" (decode_entities r)
  | String a r => String a (decode_entities r)
  | EmptyString => EmptyString
  end.

End Renderer.

(** The file the user picked in the dialog that [auth:pickJsonFile]
    shows: the first path of the answer, unless the dialog was cancelled. *)
Definition chosen_file (W : World) (st : State) : option string :=
if OpenDialog.canceled (dialog_showOpenDialog W (trace st)) then None
else head (OpenDialog.filePaths (dialog_showOpenDialog W (trace st))).

(** [JSON.parse] throws on the empty text. *)
Definition rejects_empty_text (W : World) : Prop :=
exists message, JSON_parse W "" = Throw message.

(** The object [auth:browserLogin] stores as the pending client. *)
Definition pending_client (clientId clientSecret : string) : JsVal :=
VObject [("clientId", VString clientId); ("clientSecret", VString clientSecret)].

(** The settings the BigQuery factory reads besides [projectId] and
    [authMethod], for each auth method. *)
Definition credential_keys (authMethod : string) : list string :=
if String.eqb authMethod "serviceAccount" then ["serviceAccountJson"]
else if String.eqb authMethod "browser" then ["oauthTokens"; "pendingOauthClient"]
else [].

(** What [config:load] reports for a setting that [config:save] wrote from
    the field value [v]. *)
Definition loaded_value (key v : string) : JsVal :=
VString (if String.eqb key "authMethod" then v else JsString.trim v).

(** ** A world for the browser sign-in

    The OAuth client id and secret are in the store, the pending client
    can be read back from its JSON text, and the token endpoint accepts
    the code. *)

Module Scenario.

Definition pending_text : string :=
  ("{" ++ Example.quoted "clientId" ++ ":" ++ Example.quoted "id-1" ++ ","
     ++ Example.quoted "clientSecret" ++ ":" ++ Example.quoted "s3cret" ++ "}")%string.

Definition parse (text : string) : Result JsVal :=
  if String.eqb text pending_text then Ok (pending_client "id-1" "s3cret")
  else Example.parse text.

Definition signing_in : World :=
  {| JSON_parse := parse;
     JSON_stringify := Example.stringify;
     dialog_showOpenDialog := fun _ => Example.nothing_chosen;
     fs_readFileSync := fun _ _ => Throw "ENOENT";
     oauth2_generateAuthUrl := fun _ => "https://accounts.google.com/o/oauth2/v2/auth";
     oauth2_getToken := fun _ _ _ => Throw "invalid_grant";
     bq_getTables := fun _ _ _ => Ok [Example.calls];
     bq_getMetadata := fun _ _ _ _ => Ok Example.calls_meta;
     bq_query := fun _ _ _ => Ok [];
     gemini_generateContent := fun _ _ _ _ => Ok "SELECT 1" |}.

Definition installed : State :=
  Example.state [("projectId", "acme"); ("datasetId", "pbx");
                 ("authMethod", "apiKey"); ("geminiKey", "AIza-key")]
    None [].

Definition with_oauth_client : State :=
  Example.state [("projectId", "acme"); ("oauthClientId", "id-1");
                 ("oauthClientSecret", "s3cret")]
    None [].

Definition session : list Call :=
  [Invoke_config_save
     {| Config.projectId := Some "acme"; Config.datasetId := Some "pbx";
        Config.geminiKey := Some "AIza-key"; Config.authMethod := Some "browser" |};
   Invoke_auth_pickJsonFile;
   Invoke_auth_submitOauthCode "4/0AX4XfWh";
   Invoke_agent_testConnection;
   Invoke_agent_query "How many calls?"].

End Scenario.

(** The [sql] field of a handler's reply. *)
Definition reply_sql (reply : Result JsVal) : JsVal :=
match reply with
| Ok (VObject props) => own_prop props "sql"
| _ => VUndefined
end.


(** Unfolding the handler combinators, and splitting on every test a
    handler makes. *)
Ltac run :=
cbv [bind try_catch ret throw lift gets modify store_get store_get_default
     store_set showOpenDialog readFileSync getToken openExternal] in *.

Ltac cases := repeat (simpl in *; case_match; simplify_eq); simpl in *.

(** * Properties *)

(** ** Strings and objects *)

Lemma startsWith_https_example :
  JsString.startsWith "http://example.com" "https://" = false.
Proof. reflexivity. Qed.

Lemma trim_sentinel_example :
  JsString.trim "  CANNOT_ANSWER
" = "CANNOT_ANSWER".
Proof. reflexivity. Qed.

Lemma trim_nbsp_example :
  JsString.trim (String (ascii_of_nat 194) (String (ascii_of_nat 160) "x ")) = "x".
Proof. reflexivity. Qed.

Lemma Number_of_BigInt_42 :
  Number_of_BigInt 42 = S754_finite false 5910974510923776 (-47).
Proof. reflexivity. Qed.

Lemma Number_of_BigInt_rounds :
  Number_of_BigInt (2 ^ 53 + 1) = Number_of_BigInt (2 ^ 53).
Proof. reflexivity. Qed.

Lemma toISOString_examples :
  JsDate.iso 0 = "1970-01-01T00:00:00.000Z"
  /\ JsDate.iso 1700000000000 = "2023-11-14T22:13:20.000Z"
  /\ JsDate.iso 951782400000 = "2000-02-29T00:00:00.000Z"
  /\ JsDate.iso (-1) = "1969-12-31T23:59:59.999Z"
  /\ JsDate.iso (-62167219200000) = "0000-01-01T00:00:00.000Z"
  /\ JsDate.iso (-62167219200001) = "-000001-12-31T23:59:59.999Z"
  /\ JsDate.iso 253402300799999 = "9999-12-31T23:59:59.999Z"
  /\ JsDate.iso 253402300800000 = "+010000-01-01T00:00:00.000Z"
  /\ JsDate.iso 8640000000000000 = "+275760-09-13T00:00:00.000Z"
  /\ JsDate.iso (-8640000000000000) = "-271821-04-20T00:00:00.000Z".
Proof. split_and!; vm_compute; reflexivity. Qed.

Lemma entries_order_example :
  JsObject.keys [("calls", 1); ("10", 2); ("9", 3); ("007", 4)]
  = ["9"; "10"; "calls"; "007"].
Proof. reflexivity. Qed.

Section ObjectFacts.
Context {V : Type}.
Implicit Types (o : list (string * V)).

Lemma insert_index_length e (l : list (N * (string * V))) :
  length (JsObject.insert_index e l) = S (length l).
Proof.
  induction l as [|e' l IH]; simpl; [reflexivity|].
  destruct (fst e <=? fst e')%N; simpl; [reflexivity|]. now rewrite IH.
Qed.

Lemma entries_length o : length (JsObject.entries o) = length o.
Proof.
  unfold JsObject.entries.
  rewrite length_app, length_map.
  induction o as [|[k v] o IH]; simpl; [reflexivity|].
  destruct (JsObject.array_index k); simpl.
  - rewrite insert_index_length. simpl. now rewrite IH.
  - rewrite Nat.add_succ_r. now rewrite IH.
Qed.

Lemma keys_length o : length (JsObject.keys o) = length o.
Proof. unfold JsObject.keys. rewrite length_map. apply entries_length. Qed.

(** [Object.keys(o).length === 0] holds of the object without own
    properties and of no other. *)
Lemma no_keys_iff o : (length (JsObject.keys o) =? 0)%nat = true <-> o = [].
Proof.
  rewrite keys_length. destruct o; simpl; split; intros H;
    try reflexivity; discriminate.
Qed.

Lemma some_keys o : o <> [] -> (length (JsObject.keys o) =? 0)%nat = false.
Proof.
  intros H. destruct (length (JsObject.keys o) =? 0)%nat eqn:E; [|reflexivity].
  apply no_keys_iff in E. contradiction.
Qed.

Lemma get_set_eq (k : string) (v : V) o :
  JsObject.get k (JsObject.set k v o) = Some v.
Proof.
  induction o as [|[k' v'] o IH]; simpl.
  - now rewrite String.eqb_refl.
  - destruct (String.eqb k' k) eqn:E; simpl.
    + now rewrite String.eqb_refl.
    + now rewrite E.
Qed.

Lemma get_set_ne (k k' : string) (v : V) o :
  k <> k' -> JsObject.get k' (JsObject.set k v o) = JsObject.get k' o.
Proof.
  intros Hne. induction o as [|[k0 v0] o IH]; simpl.
  - apply String.eqb_neq in Hne. now rewrite Hne.
  - destruct (String.eqb k0 k) eqn:E; simpl.
    + apply String.eqb_eq in E. subst k0.
      apply String.eqb_neq in Hne. now rewrite Hne.
    + destruct (String.eqb k0 k'); [reflexivity|exact IH].
Qed.

Lemma get_assign_ne (k k' : string) (v : V) o :
  k <> k' -> JsObject.get k' (JsObject.assign k v o) = JsObject.get k' o.
Proof.
  intros Hne. unfold JsObject.assign.
  destruct (String.eqb k "__proto__"); [reflexivity|]. now apply get_set_ne.
Qed.

Lemma get_assign_eq (k : string) (v : V) o :
  k <> "__proto__" -> JsObject.get k (JsObject.assign k v o) = Some v.
Proof.
  intros Hne. unfold JsObject.assign.
  apply String.eqb_neq in Hne. rewrite Hne. apply get_set_eq.
Qed.
End ObjectFacts.

(** ** Open external links *)

(** C8.  The open-external-link handler, called with a URL string: when the
    URL does not begin with [https://] nothing is launched and nothing is
    thrown, the handler returns with the state as it was; when it does,
    exactly one launch of that URL is added to what the process has done. *)
Theorem shell_openExternal_allow_list (url : string) (st : State) :
  shell_openExternal url st
  = (Ok VUndefined,
     if JsString.startsWith url "https://"
     then with_event (OpenExternal url) st
     else st).
Proof.
  unfold shell_openExternal, bind, openExternal, modify, ret.
  destruct (JsString.startsWith url "https://"); reflexivity.
Qed.

Lemma shell_openExternal_http_example (st : State) :
  shell_openExternal "http://example.com" st = (Ok VUndefined, st).
Proof. reflexivity. Qed.

(** ** Result normalizer *)

(** The rules as the specification words them send an object whose [value]
    is itself an object to the JSON rule; [serializeValue] unwraps it. *)
Lemma serializeValue_nested_wrapper :
  serializeValue (Example.model_says "SELECT 1") Example.nested_wrapper
  = Ok (VObject [("unit", VString "ms")])
  /\ Normalizer.claimed (Example.model_says "SELECT 1") Example.nested_wrapper
     = Ok (VString Example.nested_wrapper_text)
  /\ serializeValue (Example.model_says "SELECT 1") Example.nested_wrapper
     <> Normalizer.claimed (Example.model_says "SELECT 1") Example.nested_wrapper.
Proof.
  split; [reflexivity|]. split; [reflexivity|].
  vm_compute. discriminate.
Qed.

(** C9, amended.  For every value, [serializeValue] gives the result of the
    first rule that applies, in the order: null or undefined gives null; a
    BigInt gives the nearest binary64; a Date gives its ISO string; an
    object whose [value] is defined, scalar or not, gives that value; any
    other object gives its JSON text; anything else is returned as it is. *)
Theorem serializeValue_first_match (W : World) (v : JsVal) :
  serializeValue W v = Normalizer.amended W v.
Proof.
  destruct v as [| | b | x | z | s | t | items | props]; try reflexivity.
  unfold serializeValue, Normalizer.amended, Normalizer.normalize,
    Normalizer.first_match, Normalizer.is_defined; simpl.
  destruct (is_undefined (value_of (VObject props))); reflexivity.
Qed.

(** A row with a BigInt, a date wrapper, a Date and a text. *)
Lemma serializeRow_example :
  serializeRow (Example.model_says "SELECT 1")
    [("calls", VBigInt 42%Z);
     ("day", VObject [("value", VString "2024-01-01")]);
     ("at", VDate (Some 1700000000000%Z));
     ("queue", VString "sales");
     ("agent", VNull)]
  = Ok (VObject [("calls", VNumber (Number_of_BigInt 42%Z));
                 ("day", VString "2024-01-01");
                 ("at", VString "2023-11-14T22:13:20.000Z");
                 ("queue", VString "sales");
                 ("agent", VNull)]).
Proof. vm_compute. reflexivity. Qed.

(** Which rule that is, case by case. *)
Lemma first_match_cases (v : JsVal) :
  Normalizer.first_match Normalizer.is_defined v
  = Some match v with
         | VUndefined | VNull => Normalizer.NullRule
         | VBigInt _ => Normalizer.BigIntRule
         | VDate _ => Normalizer.DateRule
         | VArray _ => Normalizer.ObjectRule
         | VObject props =>
             if is_undefined (own_prop props "value")
             then Normalizer.ObjectRule else Normalizer.WrapperRule
         | VBool _ | VNumber _ | VString _ => Normalizer.ScalarRule
         end.
Proof.
  destruct v; try reflexivity.
  unfold Normalizer.first_match, Normalizer.is_defined; simpl.
  unfold value_of; simpl. destruct (is_undefined (own_prop props "value")); reflexivity.
Qed.

(** ** Saving the configuration *)

Lemma set_if_truthy_run (field : option string) (key : string)
  (f : string -> string) (s : State) :
  set_if_truthy field key f s
  = (Ok tt,
     if truthy_string field
     then with_store (insert key (f (the_string field))) s
     else s).
Proof.
  unfold set_if_truthy, truthy_string, the_string.
  destruct field as [v|]; simpl; [|reflexivity].
  destruct (JsString.nonempty v); reflexivity.
Qed.

Lemma config_save_run (config : Config.t) (st : State) :
  config_save config st
  = (Ok (VObject [("ok", VBool true)]),
     {| store := saved_store config (store st);
        bigqueryClient := None;
        geminiClient := None;
        tableSchemaCache := [];
        trace := trace st |}).
Proof.
  cbv [config_save bind modify ret saved_store write_if].
  rewrite set_if_truthy_run.
  destruct (truthy_string (Config.projectId config));
    rewrite set_if_truthy_run;
    destruct (truthy_string (Config.datasetId config));
    rewrite set_if_truthy_run;
    destruct (truthy_string (Config.geminiKey config));
    rewrite set_if_truthy_run;
    destruct (truthy_string (Config.authMethod config));
    destruct st; reflexivity.
Qed.

(** Saving always drops both clients and empties the schema cache. *)
Lemma config_save_invalidates (config : Config.t) (st : State) :
  bigqueryClient (snd (config_save config st)) = None
  /\ geminiClient (snd (config_save config st)) = None
  /\ tableSchemaCache (snd (config_save config st)) = [].
Proof. rewrite config_save_run. split_and!; reflexivity. Qed.

(** A whitespace-only project id is truthy: it is trimmed and stored, and
    the setting that was there is now the empty string. *)
Lemma config_save_blank_clears :
  let st := Example.state [("projectId", "acme")] None [] in
  let config := {| Config.projectId := Some "   "; Config.datasetId := None;
                   Config.geminiKey := None; Config.authMethod := None |} in
  store st !! "projectId" = Some "acme"
  /\ store (snd (config_save config st)) !! "projectId" = Some "".
Proof. split; vm_compute; reflexivity. Qed.

(** C10, amended.  For every [config:save] call and every setting whose
    field in the form is empty (absent or the empty string), the stored
    value of that setting is what it was before, and after the call both
    client handles are absent and the schema cache is empty.  (A field that
    is not empty is stored, trimmed for the three text settings.) *)
Theorem config_save_keeps_empty_fields (config : Config.t) (st : State)
  (key : string) (field : option string) :
  In (key, field) (supplied config) ->
  truthy_string field = false ->
  store (snd (config_save config st)) !! key = store st !! key
  /\ fst (config_save config st) = Ok (VObject [("ok", VBool true)])
  /\ bigqueryClient (snd (config_save config st)) = None
  /\ geminiClient (snd (config_save config st)) = None
  /\ tableSchemaCache (snd (config_save config st)) = [].
Proof.
  intros Hin Hfalsy. rewrite config_save_run. simpl.
  split; [|repeat split].
  unfold saved_store.
  assert (Hw : forall (fld : option string) (k : string) (f : string -> string)
                      (m : gmap string string),
             (k = key -> truthy_string fld = false) ->
             write_if fld k f m !! key = m !! key).
  { intros fld k f m Hk. unfold write_if.
    destruct (truthy_string fld) eqn:E; [|reflexivity].
    apply lookup_insert_ne. intros ->. specialize (Hk eq_refl). discriminate. }
  unfold supplied in Hin. simpl in Hin.
  rewrite !Hw; [reflexivity| | | |];
    intros <-; destruct Hin as [H|[H|[H|[H|[]]]]];
    inversion H; subst; try assumption; discriminate.
Qed.

Lemma config_save_keeps_empty_fields_witness :
  let st := Example.state [("projectId", "acme"); ("datasetId", "pbx")]
              (Some (BigQuery_ambient "acme"))
              [("calls", Example.calls_fields)] in
  let config := {| Config.projectId := Some ""; Config.datasetId := Some "cdr";
                   Config.geminiKey := None; Config.authMethod := None |} in
  store (snd (config_save config st)) !! "projectId" = Some "acme"
  /\ bigqueryClient (snd (config_save config st)) = None
  /\ tableSchemaCache (snd (config_save config st)) = [].
Proof.
  intros st config.
  destruct (config_save_keeps_empty_fields config st "projectId" (Some "")
              (or_introl eq_refl) eq_refl)
    as (Hkeep & _ & Hbq & _ & Hcache).
  rewrite Hkeep. split; [vm_compute; reflexivity|]. split; assumption.
Defined.


(** ** Uploading a key, signing in *)

Section AuthFacts.
Context (W : World).

(** [auth:pickJsonFile] always leaves the schema cache and the Gemini
    client as they were. *)
Lemma auth_pickJsonFile_frame (st : State) :
  tableSchemaCache (snd (auth_pickJsonFile W st)) = tableSchemaCache st
  /\ geminiClient (snd (auth_pickJsonFile W st)) = geminiClient st.
Proof. cbv [auth_pickJsonFile]. run. cases; split; reflexivity. Qed.

(** When it accepts the file it drops the BigQuery client. *)
Lemma auth_pickJsonFile_accepts (st : State) :
  reply_ok (fst (auth_pickJsonFile W st)) = VBool true ->
  bigqueryClient (snd (auth_pickJsonFile W st)) = None.
Proof. cbv [auth_pickJsonFile]. run. intros Hok. cases; done. Qed.

(** [auth:browserLogin] leaves the BigQuery client, the Gemini client and
    the schema cache as they were, whatever it returns. *)
Lemma auth_browserLogin_frame (st : State) :
  bigqueryClient (snd (auth_browserLogin W st)) = bigqueryClient st
  /\ geminiClient (snd (auth_browserLogin W st)) = geminiClient st
  /\ tableSchemaCache (snd (auth_browserLogin W st)) = tableSchemaCache st.
Proof. cbv [auth_browserLogin]. run. cases; repeat split; reflexivity. Qed.

(** [auth:submitOauthCode] always leaves the schema cache and the Gemini
    client as they were. *)
Lemma auth_submitOauthCode_frame (code : string) (st : State) :
  tableSchemaCache (snd (auth_submitOauthCode W code st)) = tableSchemaCache st
  /\ geminiClient (snd (auth_submitOauthCode W code st)) = geminiClient st.
Proof. cbv [auth_submitOauthCode]. run. cases; split; reflexivity. Qed.

Lemma auth_submitOauthCode_accepts (code : string) (st : State) :
  reply_ok (fst (auth_submitOauthCode W code st)) = VBool true ->
  bigqueryClient (snd (auth_submitOauthCode W code st)) = None.
Proof.
  cbv [auth_submitOauthCode]. run. intros Hok. cases; done.
Qed.

(** C6, amended.  When the chosen file is read and parses to [doc], and
    the type [doc] declares is absent or is not ["service_account"], the
    upload answers [{ok: false, error}] and writes nothing: the store (so
    [serviceAccountJson] and [authMethod]), both client handles and the
    schema cache are as before.  The error is the fixed "Not a valid
    service account JSON file" message for every document but [null]; for
    [null] it is "Could not read file: " followed by the engine's message
    for reading a property of [null]. *)
Theorem auth_pickJsonFile_rejects (st : State) (path : string)
  (others : list string) (raw : string) (doc : JsVal) :
  OpenDialog.canceled (dialog_showOpenDialog W (trace st)) = false ->
  OpenDialog.filePaths (dialog_showOpenDialog W (trace st)) = path :: others ->
  fs_readFileSync W (trace st ++ [ShowOpenDialog]) path = Ok raw ->
  JSON_parse W raw = Ok doc ->
  is_string (declared_type doc) "service_account" = false ->
  fst (auth_pickJsonFile W st)
  = Ok (VObject [("ok", VBool false); ("error", VString (rejection_message doc))])
  /\ (doc <> VNull -> doc <> VUndefined ->
      rejection_message doc = not_service_account_message)
  /\ (doc = VNull ->
      rejection_message doc
      = "Could not read file: Cannot read properties of null (reading 'type')")
  /\ store (snd (auth_pickJsonFile W st)) = store st
  /\ bigqueryClient (snd (auth_pickJsonFile W st)) = bigqueryClient st
  /\ geminiClient (snd (auth_pickJsonFile W st)) = geminiClient st
  /\ tableSchemaCache (snd (auth_pickJsonFile W st)) = tableSchemaCache st.
Proof.
  intros Hopen Hpaths Hread Hparse Htype.
  cbv [auth_pickJsonFile]. run. simpl.
  rewrite Hopen, Hpaths. simpl. rewrite Hread, Hparse.
  unfold rejection_message.
  destruct doc as [| | b | x | z | s | t | items | props]; simpl in *;
    try rewrite Htype; try rewrite orb_true_r; simpl;
    repeat split; try reflexivity; try congruence.
Qed.

(** C7.  When no sign-in was started, so that no pending client is stored,
    submitting a code requests the exchange with no client id and no client
    secret.  The token endpoint turns such a request down, and the handler
    answers [{ok: false}] with an error that names the token exchange and
    stores nothing: the only trace of the call is the request it made. *)
Theorem auth_submitOauthCode_without_login (code : string) (st : State) :
  store st !! "pendingOauthClient" = None ->
  parses_empty_object W ->
  rejects_anonymous_exchange W ->
  exists message,
    auth_submitOauthCode W code st
    = (Ok (VObject [("ok", VBool false);
                    ("error", VString ("Token exchange failed: " ++ message))]),
       with_event (GetToken (new_OAuth2 VUndefined VUndefined oob)
                            (JsString.trim code)) st)
    /\ JsString.includes ("Token exchange failed: " ++ message) "Token exchange" = true
    /\ store (snd (auth_submitOauthCode W code st)) = store st
    /\ store (snd (auth_submitOauthCode W code st)) !! "oauthTokens"
       = store st !! "oauthTokens".
Proof.
  intros Hpending Hparse Hreject.
  destruct (Hreject (trace st) (new_OAuth2 VUndefined VUndefined oob)
              (JsString.trim code) eq_refl) as [message Htoken].
  exists message.
  assert (Hrun : auth_submitOauthCode W code st
    = (Ok (VObject [("ok", VBool false);
                    ("error", VString ("Token exchange failed: " ++ message))]),
       with_event (GetToken (new_OAuth2 VUndefined VUndefined oob)
                            (JsString.trim code)) st)).
  { cbv [auth_submitOauthCode]. run. simpl.
    rewrite Hpending. simpl. rewrite Hparse. simpl. rewrite Htoken. reflexivity. }
  rewrite Hrun. split_and!; reflexivity.
Qed.

(** Without a pending client the reply is decided by the token endpoint
    alone: the handler has no test of its own. *)
Lemma auth_submitOauthCode_without_login_run (code : string) (st : State) :
  store st !! "pendingOauthClient" = None ->
  parses_empty_object W ->
  reply_ok (fst (auth_submitOauthCode W code st))
  = VBool
      match oauth2_getToken W (trace st) (new_OAuth2 VUndefined VUndefined oob)
              (JsString.trim code) with
      | Ok tokens => is_ok (JSON_stringify W tokens)
      | Throw _ => false
      end.
Proof.
  intros Hpending Hparse. cbv [auth_submitOauthCode]. run. simpl.
  rewrite Hpending. simpl. rewrite Hparse. simpl.
  destruct (oauth2_getToken W (trace st) _ _) as [tokens|message]; simpl;
    [|reflexivity].
  destruct (JSON_stringify W tokens); reflexivity.
Qed.

End AuthFacts.

(** C1 at a failing input: a key file is uploaded while a schema is cached.
    The upload succeeds, the new key and the auth method are stored and the
    BigQuery client is dropped, but the schema cache still holds what it
    held before the upload. *)
Theorem auth_pickJsonFile_keeps_schema_cache :
  let st := Example.state [("projectId", "acme"); ("datasetId", "pbx");
                           ("authMethod", "apiKey")]
              (Some (BigQuery_ambient "acme"))
              [("calls", Example.calls_fields)] in
  let after := auth_pickJsonFile (Example.upload Example.key_file) st in
  fst after = Ok (VObject [("ok", VBool true);
                           ("email", VString "agent@acme.iam.gserviceaccount.com")])
  /\ store (snd after) !! "serviceAccountJson" = Some Example.key_file
  /\ store (snd after) !! "authMethod" = Some "serviceAccount"
  /\ bigqueryClient (snd after) = None
  /\ tableSchemaCache (snd after) = [("calls", Example.calls_fields)]
  /\ tableSchemaCache (snd after) <> [].
Proof. repeat split; try (vm_compute; reflexivity). discriminate. Qed.

(** Starting the browser sign-in switches the stored auth method and keeps
    the BigQuery client that was built for the previous one. *)
Lemma auth_browserLogin_keeps_client :
  let st := Example.state [("projectId", "acme"); ("authMethod", "apiKey");
                           ("oauthClientId", "id"); ("oauthClientSecret", "secret")]
              (Some (BigQuery_ambient "acme")) [] in
  let after := auth_browserLogin (Example.upload Example.key_file) st in
  reply_ok (fst after) = VBool true
  /\ store (snd after) !! "authMethod" = Some "browser"
  /\ bigqueryClient (snd after) = Some (BigQuery_ambient "acme").
Proof. repeat split; vm_compute; reflexivity. Qed.

(** A document that is the JSON [null] declares no type; the upload answers
    with the message of the error it caught, not with the message for a
    file that is not a service account key. *)
Lemma auth_pickJsonFile_null_document :
  let st := Example.state [("projectId", "acme")] None [] in
  Example.parse "null" = Ok VNull
  /\ is_string (declared_type VNull) "service_account" = false
  /\ fst (auth_pickJsonFile (Example.upload "null") st)
     = Ok (VObject [("ok", VBool false);
                    ("error",
                     VString "Could not read file: Cannot read properties of null (reading 'type')")])
  /\ "Could not read file: Cannot read properties of null (reading 'type')"
     <> not_service_account_message.
Proof. repeat split; try (vm_compute; reflexivity). discriminate. Qed.

Lemma auth_pickJsonFile_rejects_witness :
  let st := Example.state [("projectId", "acme"); ("authMethod", "apiKey")] None [] in
  let after := auth_pickJsonFile (Example.upload Example.user_file) st in
  fst after = Ok (VObject [("ok", VBool false);
                           ("error", VString not_service_account_message)])
  /\ store (snd after) = store st.
Proof.
  intros st after.
  destruct (auth_pickJsonFile_rejects (Example.upload Example.user_file) st
              "/home/user/key.json" [] Example.user_file Example.user_doc
              eq_refl eq_refl eq_refl eq_refl eq_refl)
    as (Hreply & _ & _ & Hstore & _).
  split; [exact Hreply | exact Hstore].
Defined.

Lemma auth_submitOauthCode_without_login_witness :
  let st := Example.state [("projectId", "acme")] None [] in
  let W := Example.model_says "SELECT 1" in
  exists message,
    fst (auth_submitOauthCode W " 4/0AX4XfWh " st)
    = Ok (VObject [("ok", VBool false);
                   ("error", VString ("Token exchange failed: " ++ message))])
    /\ store (snd (auth_submitOauthCode W " 4/0AX4XfWh " st)) !! "oauthTokens" = None.
Proof.
  intros st W.
  destruct (auth_submitOauthCode_without_login W " 4/0AX4XfWh " st eq_refl eq_refl)
    as (message & Hrun & _ & _ & Htokens).
  - intros history client code _. exists "invalid_request". reflexivity.
  - exists message. rewrite Htokens, Hrun. split; reflexivity.
Defined.


(** ** Client factories *)

Section ClientFacts.
Context (W : World).

(** Building or fetching a client touches neither the store, the other
    client, the schema cache nor the trace. *)
Lemma getBigQueryClient_frame (st : State) :
  store (snd (getBigQueryClient W st)) = store st
  /\ geminiClient (snd (getBigQueryClient W st)) = geminiClient st
  /\ tableSchemaCache (snd (getBigQueryClient W st)) = tableSchemaCache st
  /\ trace (snd (getBigQueryClient W st)) = trace st.
Proof. cbv [getBigQueryClient]. run. cases; repeat split; reflexivity. Qed.

Lemma getGeminiClient_frame (st : State) :
  store (snd (getGeminiClient st)) = store st
  /\ bigqueryClient (snd (getGeminiClient st)) = bigqueryClient st
  /\ tableSchemaCache (snd (getGeminiClient st)) = tableSchemaCache st
  /\ trace (snd (getGeminiClient st)) = trace st.
Proof. cbv [getGeminiClient]. run. cases; repeat split; reflexivity. Qed.

(** The Gemini client is there, or can be built, exactly when one is cached
    or a key is stored. *)
Lemma getGeminiClient_ok (st : State) :
  geminiClient st <> None \/ truthy_string (store st !! "geminiKey") = true ->
  exists ai, fst (getGeminiClient st) = Ok ai.
Proof.
  cbv [getGeminiClient]. run.
  destruct (geminiClient st) as [ai|]; simpl; [eauto|].
  intros [H|H]; [congruence|]. rewrite H. simpl. eauto.
Qed.

Lemma getGeminiClient_missing (st : State) :
  geminiClient st = None ->
  truthy_string (store st !! "geminiKey") = false ->
  getGeminiClient st
  = (Throw "No Gemini API key configured. Go to Settings and add your key.", st).
Proof.
  intros Hnone Hkey. cbv [getGeminiClient]. run. rewrite Hnone. simpl.
  rewrite Hkey. reflexivity.
Qed.

End ClientFacts.

(** ** The schema walk *)

Section SchemaFacts.
Context (W : World).

Lemma write_entries_app (a b cache : list (string * list Field.t)) :
  write_entries (a ++ b) cache = write_entries b (write_entries a cache).
Proof. unfold write_entries. apply fold_left_app. Qed.

(** An entry that the walk does not write is still what it was. *)
Lemma get_write_entries_other (k : string)
  (written cache : list (string * list Field.t)) :
  ~ In k (List.map fst written) ->
  JsObject.get k (write_entries written cache) = JsObject.get k cache.
Proof.
  revert cache. induction written as [|[k' v'] written IH]; intros cache Hout;
    [reflexivity|].
  simpl in Hout. change (write_entries ((k', v') :: written) cache)
    with (write_entries written (JsObject.assign k' v' cache)).
  rewrite IH by tauto. apply get_assign_ne. tauto.
Qed.

(** A table that the walk wrote has an entry afterwards, one of those
    written for it. *)
Lemma get_write_entries_listed (k : string)
  (written cache : list (string * list Field.t)) :
  In k (List.map fst written) ->
  k <> "__proto__" ->
  exists fields,
    In (k, fields) written
    /\ JsObject.get k (write_entries written cache) = Some fields.
Proof.
  intros Hin Hname. revert cache Hin.
  induction written as [|[k' v'] written IH]; intros cache Hin; [destruct Hin|].
  change (write_entries ((k', v') :: written) cache)
    with (write_entries written (JsObject.assign k' v' cache)).
  destruct (in_dec string_dec k (List.map fst written)) as [Hlater|Hlast].
  - destruct (IH (JsObject.assign k' v' cache) Hlater) as (fields & Hf & Hget).
    exists fields. split; [right; exact Hf|exact Hget].
  - destruct Hin as [Heq|Hin]; [|contradiction]. simpl in Heq. subst k'.
    exists v'. split; [left; reflexivity|].
    rewrite get_write_entries_other by exact Hlast.
    now apply get_assign_eq.
Qed.

(** The loop over the listed tables writes the entries of a prefix of the
    listing, in order, straight into the cache: the whole listing when it
    returns, a proper prefix when a fetch throws. *)
Lemma primeSchemaCache_run (bq : BigQuery) (datasetId : string)
  (tables : list Table.t) (st : State) :
  exists (written : list (string * list Field.t)) (evs : list Event),
    List.map fst written = List.map Table.id (take (length written) tables)
    /\ Forall (fetched W bq datasetId) written
    /\ tableSchemaCache (snd (primeSchemaCache W bq datasetId tables st))
       = write_entries written (tableSchemaCache st)
    /\ (fst (primeSchemaCache W bq datasetId tables st) = Ok tt
        -> length written = length tables)
    /\ (forall message,
           fst (primeSchemaCache W bq datasetId tables st) = Throw message
           -> (length written < length tables)%nat)
    /\ store (snd (primeSchemaCache W bq datasetId tables st)) = store st
    /\ bigqueryClient (snd (primeSchemaCache W bq datasetId tables st))
       = bigqueryClient st
    /\ geminiClient (snd (primeSchemaCache W bq datasetId tables st))
       = geminiClient st
    /\ trace (snd (primeSchemaCache W bq datasetId tables st)) = trace st ++ evs
    /\ forallb is_metadata evs = true.
Proof.
  revert st. induction tables as [|table tables IH]; intros st.
  - exists [], []. simpl. rewrite app_nil_r.
    split_and!; intros;
      first [reflexivity | discriminate | exact (List.Forall_nil _)].
  - cbn [primeSchemaCache for_of]. cbv [bind getMetadata modify].
    destruct (bq_getMetadata W (trace st) bq datasetId (Table.id table))
      as [meta|message] eqn:Hmeta.
    + set (s1 := with_tableSchemaCache _ _).
      destruct (IH s1) as (written & evs & Hkeys & Hfetched & Hcache & Hok & Hthrow
                           & Hstore & Hbq & Hai & Htrace & Hevs).
      exists ((Table.id table, schema_fields meta) :: written),
             (GetMetadata bq datasetId (Table.id table) :: evs).
      change (for_of tables _) with (primeSchemaCache W bq datasetId tables).
      split_and!.
      * simpl. now rewrite Hkeys.
      * constructor; [|exact Hfetched]. exists (trace st), meta. split; [exact Hmeta|reflexivity].
      * rewrite Hcache. reflexivity.
      * intros Hret. simpl. now rewrite (Hok Hret).
      * intros m Hret. simpl. specialize (Hthrow m Hret). lia.
      * rewrite Hstore. reflexivity.
      * rewrite Hbq. reflexivity.
      * rewrite Hai. reflexivity.
      * rewrite Htrace. simpl. now rewrite <- app_assoc.
      * simpl. exact Hevs.
    + exists [], [GetMetadata bq datasetId (Table.id table)]. simpl.
      split_and!; intros;
        first [reflexivity | discriminate | exact (List.Forall_nil _) | simpl; lia].
Qed.

(** Step 1 of [agent:query] on a cache that has an entry: nothing is
    called, nothing is changed. *)
Lemma ensureSchema_cached (bq : BigQuery) (datasetId : string) (st : State) :
  tableSchemaCache st <> [] ->
  ensureSchema W bq datasetId st = (Ok tt, st).
Proof.
  intros H. cbv [ensureSchema bind gets]. rewrite (some_keys _ H). reflexivity.
Qed.

(** Step 1 on an empty cache: one listing, then the walk. *)
Lemma ensureSchema_empty (bq : BigQuery) (datasetId : string) (st : State) :
  tableSchemaCache st = [] ->
  ensureSchema W bq datasetId st
  = match bq_getTables W (trace st) bq datasetId with
    | Ok tables =>
        primeSchemaCache W bq datasetId tables
          (with_event (GetTables bq datasetId) st)
    | Throw message => (Throw message, with_event (GetTables bq datasetId) st)
    end.
Proof.
  intros H. cbv [ensureSchema bind gets getTables]. rewrite H. simpl.
  destruct (bq_getTables W (trace st) bq datasetId); reflexivity.
Qed.

(** Whatever the cache, step 1 adds only listing and metadata events and
    leaves the store and the clients alone. *)
Lemma ensureSchema_frame (bq : BigQuery) (datasetId : string) (st : State) :
  exists evs,
    trace (snd (ensureSchema W bq datasetId st)) = trace st ++ evs
    /\ forallb is_schema_event evs = true
    /\ store (snd (ensureSchema W bq datasetId st)) = store st
    /\ bigqueryClient (snd (ensureSchema W bq datasetId st)) = bigqueryClient st
    /\ geminiClient (snd (ensureSchema W bq datasetId st)) = geminiClient st.
Proof.
  destruct (tableSchemaCache st) as [|e cache] eqn:Hcache.
  - rewrite (ensureSchema_empty _ _ _ Hcache).
    destruct (bq_getTables W (trace st) bq datasetId) as [tables|message].
    + destruct (primeSchemaCache_run bq datasetId tables
                  (with_event (GetTables bq datasetId) st))
        as (written & evs & _ & _ & _ & _ & _ & Hstore & Hbq & Hai & Htrace & Hevs).
      exists (GetTables bq datasetId :: evs).
      rewrite Htrace, Hstore, Hbq, Hai. simpl. rewrite <- app_assoc. simpl.
      repeat split; try reflexivity.
      clear - Hevs. induction evs as [|e evs IH]; simpl in *; [reflexivity|].
      apply andb_prop in Hevs as [He Hevs]. rewrite (IH Hevs).
      destruct e; try discriminate; reflexivity.
    + exists [GetTables bq datasetId]. simpl. repeat split; reflexivity.
  - rewrite ensureSchema_cached by (rewrite Hcache; discriminate).
    exists []. simpl. rewrite app_nil_r. repeat split; reflexivity.
Qed.

End SchemaFacts.


(** ** Refreshing the schema cache *)

Section RefreshFacts.
Context (W : World).

Lemma metadata_at_head (bq : BigQuery) (datasetId : string)
  (history : list Event) (table : Table.t) (tables : list Table.t) :
  metadata_at W bq datasetId history (table :: tables) 0
  = Some (bq_getMetadata W history bq datasetId (Table.id table)).
Proof. unfold metadata_at. simpl. now rewrite app_nil_r. Qed.

Lemma metadata_at_tail (bq : BigQuery) (datasetId : string)
  (history : list Event) (table : Table.t) (tables : list Table.t) (i : nat) :
  metadata_at W bq datasetId history (table :: tables) (S i)
  = metadata_at W bq datasetId
      (history ++ [GetMetadata bq datasetId (Table.id table)]) tables i.
Proof.
  unfold metadata_at. simpl. destruct (tables !! i); [|reflexivity].
  now rewrite <- app_assoc.
Qed.

(** The loop over the listed tables stops at the first fetch that throws,
    with the entries of the tables before it written into the cache. *)
Lemma primeSchemaCache_walked (bq : BigQuery) (datasetId : string)
  (tables : list Table.t) (st : State) :
  walked W bq datasetId (trace st) tables
    (thrown (fst (primeSchemaCache W bq datasetId tables st)))
    (tableSchemaCache st)
    (tableSchemaCache (snd (primeSchemaCache W bq datasetId tables st))).
Proof.
  revert st. induction tables as [|table tables IH]; intros st.
  - exists []. split_and!; [|reflexivity|reflexivity].
    intros i meta Hi. rewrite lookup_nil in Hi. discriminate.
  - cbn [primeSchemaCache for_of]. cbv [bind getMetadata modify].
    destruct (bq_getMetadata W (trace st) bq datasetId (Table.id table))
      as [meta|message] eqn:Hmeta.
    + set (s1 := with_tableSchemaCache _ _).
      destruct (IH s1) as (metas & Hfetched & Hafter & Hfailure).
      change (for_of tables _) with (primeSchemaCache W bq datasetId tables).
      exists (meta :: metas). split_and!.
      * intros [|i] m Hi.
        -- simpl in Hi. injection Hi as <-.
           rewrite metadata_at_head, Hmeta. reflexivity.
        -- rewrite metadata_at_tail. apply Hfetched. exact Hi.
      * rewrite Hafter. reflexivity.
      * destruct (primeSchemaCache W bq datasetId tables s1) as [[[]|m] s2];
          simpl in *.
        -- now rewrite Hfailure.
        -- rewrite metadata_at_tail. exact Hfailure.
    + exists []. split_and!.
      * intros i meta Hi. rewrite lookup_nil in Hi. discriminate.
      * reflexivity.
      * simpl. rewrite metadata_at_head, Hmeta. reflexivity.
Qed.

(** The connectivity check once the client and the dataset are there. *)
Lemma agent_testConnection_run (st s1 : State) (bq : BigQuery) (datasetId : string) :
  getBigQueryClient W st = (Ok bq, s1) ->
  store st !! "datasetId" = Some datasetId ->
  JsString.nonempty datasetId = true ->
  agent_testConnection W st
  = match bq_getTables W (trace st) bq datasetId with
    | Throw message =>
        (Ok (VObject [("ok", VBool false); ("error", VString message)]),
         with_event (GetTables bq datasetId) s1)
    | Ok tables =>
        let walk := primeSchemaCache W bq datasetId tables
                      (with_event (GetTables bq datasetId) s1) in
        (Ok match fst walk with
            | Ok _ =>
                VObject [("ok", VBool true);
                         ("tables",
                          VArray (List.map (fun t => VString (Table.id t)) tables))]
            | Throw message =>
                VObject [("ok", VBool false); ("error", VString message)]
            end,
         snd walk)
    end.
Proof.
  intros Hbq Hdataset Hnonempty.
  destruct (getBigQueryClient_frame W st) as (Hstore & _ & _ & Htrace).
  rewrite Hbq in Hstore, Htrace. simpl in Hstore, Htrace.
  cbv [agent_testConnection bind try_catch ret gets store_get getTables].
  rewrite Hbq. cbv beta iota. rewrite Hstore, Hdataset. simpl.
  rewrite Hnonempty. simpl. rewrite Htrace.
  destruct (bq_getTables W (trace st) bq datasetId) as [tables|message];
    [|reflexivity].
  destruct (primeSchemaCache W bq datasetId tables
              (with_event (GetTables bq datasetId) s1)) as [[[]|message] s2];
    reflexivity.
Qed.

(** C2, amended.  A refresh of the schema cache writes into the cache while
    it walks the listing.  If the listing itself fails the cache is left
    exactly as it was.  Otherwise the entries of the listed tables are
    assigned one by one in listing order: when a metadata fetch fails, the
    cache holds what it held before with the entries of the tables listed
    before the failing one, and of no other, assigned on top, and the error
    reported is the one of that fetch; when every fetch succeeds it holds
    what it held before with the entries of all listed tables assigned on
    top.  This holds of the lazy population in [agent:query] (which runs on
    an empty cache) and of the connectivity check. *)
Theorem schema_refresh_writes_in_place (bq : BigQuery) (datasetId : string)
  (st : State) :
  (tableSchemaCache st = [] ->
   match bq_getTables W (trace st) bq datasetId with
   | Throw message =>
       fst (ensureSchema W bq datasetId st) = Throw message
       /\ tableSchemaCache (snd (ensureSchema W bq datasetId st)) = tableSchemaCache st
   | Ok tables =>
       walked W bq datasetId (trace st ++ [GetTables bq datasetId]) tables
         (thrown (fst (ensureSchema W bq datasetId st)))
         (tableSchemaCache st)
         (tableSchemaCache (snd (ensureSchema W bq datasetId st)))
   end)
  /\ (forall s1,
       getBigQueryClient W st = (Ok bq, s1) ->
       store st !! "datasetId" = Some datasetId ->
       JsString.nonempty datasetId = true ->
       match bq_getTables W (trace st) bq datasetId with
       | Throw message =>
           fst (agent_testConnection W st)
           = Ok (VObject [("ok", VBool false); ("error", VString message)])
           /\ tableSchemaCache (snd (agent_testConnection W st)) = tableSchemaCache st
       | Ok tables =>
           exists failure,
             fst (agent_testConnection W st)
             = Ok match failure with
                  | None =>
                      VObject [("ok", VBool true);
                               ("tables",
                                VArray (List.map (fun t => VString (Table.id t))
                                          tables))]
                  | Some message =>
                      VObject [("ok", VBool false); ("error", VString message)]
                  end
             /\ walked W bq datasetId (trace st ++ [GetTables bq datasetId])
                  tables failure
                  (tableSchemaCache st)
                  (tableSchemaCache (snd (agent_testConnection W st)))
       end).
Proof.
  split.
  - intros Hempty. rewrite (ensureSchema_empty W _ _ _ Hempty).
    destruct (bq_getTables W (trace st) bq datasetId) as [tables|message].
    + exact (primeSchemaCache_walked bq datasetId tables
               (with_event (GetTables bq datasetId) st)).
    + split; reflexivity.
  - intros s1 Hbq Hdataset Hnonempty.
    rewrite (agent_testConnection_run st s1 bq datasetId Hbq Hdataset Hnonempty).
    destruct (getBigQueryClient_frame W st) as (_ & _ & Hcache & Htrace).
    rewrite Hbq in Hcache, Htrace. simpl in Hcache, Htrace.
    destruct (bq_getTables W (trace st) bq datasetId) as [tables|message].
    + pose proof (primeSchemaCache_walked bq datasetId tables
                    (with_event (GetTables bq datasetId) s1)) as Hwalk.
      simpl in Hwalk. rewrite Hcache, Htrace in Hwalk. simpl.
      destruct (fst (primeSchemaCache W bq datasetId tables
                       (with_event (GetTables bq datasetId) s1))) as [[]|message].
      * exists None. split; [reflexivity|exact Hwalk].
      * exists (Some message). split; [reflexivity|exact Hwalk].
    + simpl. split; [reflexivity|exact Hcache].
Qed.

(** C3, amended.  When a call of the ensure-schema step returns and leaves
    a cache that is not empty, a second call right after it calls nothing
    and changes nothing, so the mapping is the one the first call left;
    the two calls together made one listing if the cache was empty before
    the first call, and none if it already had an entry. *)
Theorem ensureSchema_twice (bq : BigQuery) (datasetId : string) (st : State) :
  fst (ensureSchema W bq datasetId st) = Ok tt ->
  tableSchemaCache (snd (ensureSchema W bq datasetId st)) <> [] ->
  ensureSchema W bq datasetId (snd (ensureSchema W bq datasetId st))
  = (Ok tt, snd (ensureSchema W bq datasetId st))
  /\ listings
       (new_events st
          (snd (ensureSchema W bq datasetId (snd (ensureSchema W bq datasetId st)))))
     = (if (length (tableSchemaCache st) =? 0)%nat then 1 else 0)%nat.
Proof.
  intros Hok Hfilled.
  rewrite (ensureSchema_cached W bq datasetId _ Hfilled). split; [reflexivity|].
  simpl. unfold new_events.
  destruct (tableSchemaCache st) as [|e cache] eqn:Hcache.
  - rewrite (ensureSchema_empty W _ _ _ Hcache) in *.
    destruct (bq_getTables W (trace st) bq datasetId) as [tables|message];
      [|discriminate].
    destruct (primeSchemaCache_run W bq datasetId tables
                (with_event (GetTables bq datasetId) st))
      as (written & evs & _ & _ & _ & _ & _ & _ & _ & _ & Htrace & Hevs).
    rewrite Htrace. simpl. rewrite <- app_assoc, drop_app_length. simpl.
    unfold listings. simpl. f_equal.
    clear - Hevs. induction evs as [|e evs IH]; simpl in *; [reflexivity|].
    apply andb_prop in Hevs as [He Hevs].
    destruct e; try discriminate. simpl. apply IH, Hevs.
  - rewrite ensureSchema_cached by (rewrite Hcache; discriminate).
    simpl. rewrite drop_all. reflexivity.
Qed.

End RefreshFacts.

(** On the dataset whose second table cannot be described, the
    connectivity check and a question both report the failure and leave the
    entry of the first table in a cache that was empty. *)
Lemma schema_refresh_partial_write :
  let st := Example.state [("projectId", "acme"); ("datasetId", "pbx");
                           ("authMethod", "apiKey"); ("geminiKey", "k")] None [] in
  let checked := agent_testConnection Example.half_listed st in
  let asked := agent_query Example.half_listed "How many calls?" st in
  tableSchemaCache st = []
  /\ fst checked = Ok (VObject [("ok", VBool false);
                               ("error", VString "Not found: Table queues")])
  /\ tableSchemaCache (snd checked) = [("calls", Example.calls_fields)]
  /\ fst asked = Ok (VObject [("ok", VBool false);
                             ("error", VString "Not found: Table queues");
                             ("sql", VNull)])
  /\ tableSchemaCache (snd asked) = [("calls", Example.calls_fields)]
  /\ tableSchemaCache (snd checked) <> tableSchemaCache st.
Proof. split_and!; try (vm_compute; reflexivity). discriminate. Qed.

(** On a dataset without tables the cache stays empty, and a second
    ensure-schema call lists the dataset again: two listings in two calls,
    of the step alone and of two questions in a row. *)
Lemma ensureSchema_empty_dataset_lists_twice :
  let st := Example.state [("projectId", "acme"); ("datasetId", "pbx");
                           ("authMethod", "apiKey"); ("geminiKey", "AIza-key")]
              None [] in
  let bq := BigQuery_ambient "acme" in
  let W := Example.empty_dataset in
  let first := ensureSchema W bq "pbx" st in
  let second := ensureSchema W bq "pbx" (snd first) in
  let asked := agent_query W "How many calls?" st in
  let asked_again := agent_query W "How many calls?" (snd asked) in
  fst first = Ok tt
  /\ fst second = Ok tt
  /\ new_events (snd first) (snd second) = [GetTables bq "pbx"]
  /\ listings (new_events st (snd second)) = 2%nat
  /\ reply_ok (fst asked) = VBool true
  /\ reply_ok (fst asked_again) = VBool true
  /\ listings (new_events st (snd asked_again)) = 2%nat.
Proof. split_and!; vm_compute; reflexivity. Qed.

(** On the dataset whose second table cannot be described, a cache that
    is still empty after the failure is not an outcome of the walk: the
    entry of the first table has to be there. *)
Lemma walked_excludes_rollback :
  let bq := BigQuery_ambient "acme" in
  ~ walked Example.half_listed bq "pbx" [GetTables bq "pbx"]
      [Example.calls; Example.queues] (Some "Not found: Table queues") [] [].
Proof.
  intros bq (metas & Hfetched & Hafter & Hfailure).
  destruct metas as [|m [|m' metas]].
  - vm_compute in Hfailure. discriminate.
  - specialize (Hfetched 0%nat m eq_refl). vm_compute in Hfetched.
    injection Hfetched as <-. vm_compute in Hafter. discriminate.
  - specialize (Hfetched 1%nat m' eq_refl). vm_compute in Hfetched. discriminate.
Qed.

Lemma schema_refresh_writes_in_place_witness :
  let st := Example.state [("projectId", "acme"); ("datasetId", "pbx")] None [] in
  let bq := BigQuery_ambient "acme" in
  walked Example.half_listed bq "pbx" [GetTables bq "pbx"]
    [Example.calls; Example.queues] (Some "Not found: Table queues")
    [] (tableSchemaCache (snd (ensureSchema Example.half_listed bq "pbx" st))).
Proof.
  intros st bq.
  exact (proj1 (schema_refresh_writes_in_place Example.half_listed bq "pbx" st)
           eq_refl).
Defined.

Lemma ensureSchema_twice_witness :
  let st := Example.state [("projectId", "acme"); ("datasetId", "pbx")] None [] in
  let bq := BigQuery_ambient "acme" in
  let W := Example.model_says "SELECT 1" in
  ensureSchema W bq "pbx" (snd (ensureSchema W bq "pbx" st))
  = (Ok tt, snd (ensureSchema W bq "pbx" st))
  /\ listings
       (new_events st (snd (ensureSchema W bq "pbx" (snd (ensureSchema W bq "pbx" st)))))
     = 1%nat.
Proof.
  intros st bq W.
  apply (ensureSchema_twice W bq "pbx" st); [reflexivity|discriminate].
Defined.


(** ** Asking a question *)

Section QueryFacts.
Context (W : World).

(** C5, amended.  When the BigQuery client is cached or can be built, the
    Gemini client is cached or a Gemini key is stored, and no dataset is
    configured, a question is answered with
    [{ok: false, error: "No BigQuery dataset configured.", sql: null}]: the
    error names the dataset and the call reaches neither the model nor the
    warehouse, it adds no event at all. *)
Theorem agent_query_without_dataset (userQuestion : string) (st s1 : State)
  (bq : BigQuery) :
  getBigQueryClient W st = (Ok bq, s1) ->
  geminiClient st <> None \/ truthy_string (store st !! "geminiKey") = true ->
  truthy_string (store st !! "datasetId") = false ->
  fst (agent_query W userQuestion st)
  = Ok (error_reply "No BigQuery dataset configured.")
  /\ JsString.includes "No BigQuery dataset configured." "dataset" = true
  /\ new_events st (snd (agent_query W userQuestion st)) = [].
Proof.
  intros Hbq Hkey Hdataset.
  destruct (getBigQueryClient_frame W st) as (Hstore & Hai & _ & Htrace).
  rewrite Hbq in Hstore, Hai, Htrace. simpl in Hstore, Hai, Htrace.
  destruct (getGeminiClient_ok s1) as [ai Hgemini].
  { rewrite Hai, Hstore. exact Hkey. }
  destruct (getGeminiClient_frame s1) as (Hstore2 & _ & _ & Htrace2).
  destruct (getGeminiClient s1) as [r s2] eqn:Hrun. simpl in *. subst r.
  cbv [agent_query bind try_catch ret throw gets store_get].
  rewrite Hbq. cbv beta iota. rewrite Hrun. cbv beta iota.
  rewrite Hstore2, Hstore, Hdataset. simpl.
  split_and!; try reflexivity.
  unfold new_events. rewrite Htrace2, Htrace. apply drop_all.
Qed.

(** C4.  When the call to the model made by a question is answered with a
    text whose trimmed form is exactly [CANNOT_ANSWER], the question is
    answered with [{ok: true, sql: null, rows: [], columns: [], message}],
    where the message is the fixed guidance text, which is not empty, and
    the call runs no query on the warehouse. *)
Theorem agent_query_cannot_answer (userQuestion : string) (st : State)
  (ai : GoogleGenerativeAI.t) (model prompt text : string) :
  In (GenerateContent ai model prompt (Ok text))
     (new_events st (snd (agent_query W userQuestion st))) ->
  JsString.trim text = "CANNOT_ANSWER" ->
  fst (agent_query W userQuestion st) = Ok cannot_answer_reply
  /\ cannot_answer_message <> ""
  /\ forallb (fun e => negb (is_query e))
       (new_events st (snd (agent_query W userQuestion st))) = true.
Proof.
  intros Hin Htrim. unfold new_events in *. revert Hin.
  destruct (getBigQueryClient_frame W st) as (_ & _ & _ & Htrace1).
  cbv [agent_query bind try_catch ret throw gets store_get lift].
  destruct (getBigQueryClient W st) as [[bq|m] s1]; simpl in Htrace1;
    cbv beta iota.
  2:{ simpl. rewrite Htrace1, drop_all. intros []. }
  destruct (getGeminiClient_frame s1) as (_ & _ & _ & Htrace2).
  destruct (getGeminiClient s1) as [[ai'|m] s2]; simpl in Htrace2;
    cbv beta iota.
  2:{ simpl. rewrite Htrace2, Htrace1, drop_all. intros []. }
  destruct (truthy_string (store s2 !! "datasetId")); simpl.
  2:{ rewrite Htrace2, Htrace1, drop_all. intros []. }
  destruct (ensureSchema_frame W bq (the_string (store s2 !! "datasetId")) s2)
    as (evs & Htrace3 & Hevs & _).
  destruct (ensureSchema W bq (the_string (store s2 !! "datasetId")) s2)
    as [[[]|m] s3]; simpl in Htrace3; cbv beta iota.
  2:{ simpl. rewrite Htrace3, Htrace2, Htrace1, drop_app_length. intros Hin.
      exfalso. rewrite forallb_forall in Hevs. specialize (Hevs _ Hin). discriminate. }
  cbv [generateContent query].
  assert (Hschema : forall e, In e evs -> is_schema_event e = true)
    by (apply forallb_forall; exact Hevs).
  assert (Hquiet : forallb (fun e => negb (is_query e)) evs = true).
  { apply forallb_forall. intros e He. specialize (Hschema e He).
    destruct e; try discriminate; reflexivity. }
  remember (systemPrompt _ _ _ _) as sent eqn:Hsent. clear Hsent.
  destruct (gemini_generateContent W (trace s3) ai' "gemini-1.5-flash" sent)
    as [reply|m] eqn:Hreply; cbv beta iota.
  2:{ simpl. rewrite Htrace3, Htrace2, Htrace1, <- app_assoc, drop_app_length.
      intros Hin. exfalso. apply in_app_or in Hin as [Hin|[Hin|[]]].
      - specialize (Hschema _ Hin). discriminate.
      - discriminate. }
  destruct (String.eqb (JsString.trim reply) "CANNOT_ANSWER") eqn:Hsentinel.
  - simpl. rewrite Htrace3, Htrace2, Htrace1, <- app_assoc, drop_app_length.
    intros _. split_and!; [reflexivity|discriminate|].
    rewrite forallb_app, Hquiet. reflexivity.
  - intros Hin. exfalso.
    assert (Hreply' : reply = text).
    { destruct (bq_query W _ bq (JsString.trim reply)) as [rows|m];
        [destruct (map_result (serializeRow W) rows)|]; simpl in Hin;
        rewrite Htrace3, Htrace2, Htrace1, <- !app_assoc, drop_app_length in Hin;
        apply in_app_or in Hin as [Hin|Hin];
        try (specialize (Hschema _ Hin); discriminate);
        simpl in Hin; destruct Hin as [Hin|[Hin|[]]]; congruence. }
    subst reply. rewrite Htrim in Hsentinel. discriminate.
Qed.

End QueryFacts.

(** A stored key file and project but no Gemini key and no dataset: the
    BigQuery client is built, and the question fails on the missing Gemini
    key, with an error that does not name the dataset. *)
Lemma agent_query_missing_gemini_key :
  let st := Example.state [("projectId", "acme"); ("authMethod", "serviceAccount");
                           ("serviceAccountJson", Example.key_file)] None [] in
  let W := Example.model_says "SELECT 1" in
  store st !! "datasetId" = None
  /\ fst (getBigQueryClient W st) = Ok (BigQuery_credentials "acme" Example.key_doc)
  /\ fst (agent_query W "How many calls?" st)
     = Ok (error_reply "No Gemini API key configured. Go to Settings and add your key.")
  /\ JsString.includes
       "No Gemini API key configured. Go to Settings and add your key." "dataset"
     = false.
Proof. split_and!; vm_compute; reflexivity. Qed.

Lemma agent_query_without_dataset_witness :
  let st := Example.state [("projectId", "acme"); ("authMethod", "serviceAccount");
                           ("serviceAccountJson", Example.key_file);
                           ("geminiKey", "AIza-key")] None [] in
  let W := Example.model_says "SELECT 1" in
  fst (agent_query W "How many calls?" st)
  = Ok (error_reply "No BigQuery dataset configured.")
  /\ new_events st (snd (agent_query W "How many calls?" st)) = [].
Proof.
  intros st W.
  destruct (agent_query_without_dataset W "How many calls?" st
              (snd (getBigQueryClient W st))
              (BigQuery_credentials "acme" Example.key_doc)
              eq_refl (or_intror eq_refl) eq_refl)
    as (Hreply & _ & Hquiet).
  split; [exact Hreply | exact Hquiet].
Defined.

Lemma agent_query_cannot_answer_witness :
  let st := Example.state [("projectId", "acme"); ("datasetId", "pbx");
                           ("authMethod", "apiKey"); ("geminiKey", "AIza-key")]
              None [] in
  let W := Example.model_says "  CANNOT_ANSWER " in
  fst (agent_query W "What is the weather?" st) = Ok cannot_answer_reply.
Proof.
  intros st W.
  refine (proj1 (agent_query_cannot_answer W "What is the weather?" st
                   {| GoogleGenerativeAI.apiKey := "AIza-key" |}
                   "gemini-1.5-flash"
                   (systemPrompt (Some "acme") "pbx"
                      (schemaText (Some "acme") "pbx"
                         [("calls", Example.calls_fields)])
                      "What is the weather?")
                   "  CANNOT_ANSWER " _ eq_refl)).
  vm_compute. right. right. left. reflexivity.
Defined.


(** * More of the code *)

(** ** renderer.js: [escapeHtml] *)

Section EscapeFacts.
Import Renderer.

Lemma string_app_assoc (x y z : string) :
  ((x ++ y) ++ z = x ++ (y ++ z))%string.
Proof.
  induction x as [|a x IH]; [reflexivity|].
  change (String a ((x ++ y) ++ z) = String a (x ++ (y ++ z)))%string.
  f_equal. exact IH.
Qed.

Lemma string_length_app (x y : string) :
  String.length (x ++ y)%string = (String.length x + String.length y)%nat.
Proof.
  induction x as [|a x IH]; [reflexivity|].
  change (S (String.length (x ++ y)%string)
          = S (String.length x + String.length y)).
  f_equal. exact IH.
Qed.

Lemma replaceAll_app (c : ascii) (r x y : string) :
  replaceAll c r (x ++ y)%string
  = (replaceAll c r x ++ replaceAll c r y)%string.
Proof.
  induction x as [|a x IH]; simpl; [reflexivity|].
  destruct (Ascii.eqb a c); simpl; rewrite IH; [|reflexivity].
  now rewrite string_app_assoc.
Qed.

(** The five passes, one after the other, amount to one pass that
    replaces each character on its own. *)
Lemma escapeHtml_cons (a : ascii) (s : string) :
  escapeHtml (String a s) = (escape_char a ++ escapeHtml s)%string.
Proof.
  unfold escapeHtml, escape_char.
  change (String a s) with (String a EmptyString ++ s)%string.
  rewrite !replaceAll_app. f_equal.
  destruct a as [[] [] [] [] [] [] [] []]; reflexivity.
Qed.

Lemma has_char_app (c : ascii) (x y : string) :
  has_char c (x ++ y)%string = has_char c x || has_char c y.
Proof.
  induction x as [|a x IH]; simpl; [reflexivity|].
  rewrite IH. now rewrite orb_assoc.
Qed.

Lemma escape_char_safe (a c : ascii) :
  In c ["<"; ">"; quot; "'"]%char -> has_char c (escape_char a) = false.
Proof.
  intros Hc. simpl in Hc.
  destruct Hc as [<-|[<-|[<-|[<-|[]]]]];
    destruct a as [[] [] [] [] [] [] [] []]; reflexivity.
Qed.

(** X1.  The escaped text holds no [<], no [>], no double quote and no
    single quote, whatever the input: it cannot open a tag or close an
    attribute. *)
Theorem escapeHtml_has_no_markup (str : string) (c : ascii) :
  In c ["<"; ">"; quot; "'"]%char ->
  has_char c (escapeHtml str) = false.
Proof.
  intros Hc. induction str as [|a str IH]; [reflexivity|].
  rewrite escapeHtml_cons, has_char_app, IH, (escape_char_safe a c Hc).
  reflexivity.
Qed.

Lemma escapeHtml_has_no_markup_witness :
  has_char "<" (escapeHtml "<img src=x onerror='alert(1)'>") = false.
Proof.
  apply escapeHtml_has_no_markup. left. reflexivity.
Defined.

Lemma decode_escape_char (a : ascii) (s : string) :
  decode_entities (escape_char a ++ s)%string = String a (decode_entities s).
Proof.
  destruct a as [[] [] [] [] [] [] [] []]; try reflexivity.
Qed.

Lemma decode_escapeHtml (str : string) :
  decode_entities (escapeHtml str) = str.
Proof.
  induction str as [|a str IH]; [reflexivity|].
  rewrite escapeHtml_cons, decode_escape_char, IH. reflexivity.
Qed.

(** X2.  Escaping loses nothing: two texts with the same escaped form are
    the same text. *)
Theorem escapeHtml_injective (s1 s2 : string) :
  escapeHtml s1 = escapeHtml s2 -> s1 = s2.
Proof.
  intros H. rewrite <- (decode_escapeHtml s1), <- (decode_escapeHtml s2).
  now rewrite H.
Qed.

Lemma escapeHtml_injective_witness :
  "a < b" = "a < b".
Proof. apply escapeHtml_injective. reflexivity. Defined.

(** A text without any of the five characters is returned as it is. *)
Lemma escapeHtml_plain (str : string) :
  (forall c, In c ["&"; "<"; ">"; quot; "'"]%char -> has_char c str = false) ->
  escapeHtml str = str.
Proof.
  intros Hplain. induction str as [|a str IH]; [reflexivity|].
  rewrite escapeHtml_cons, IH.
  - assert (Ha : escape_char a = String a EmptyString).
    { unfold escape_char.
      assert (Hne : forall c, In c ["&"; "<"; ">"; quot; "'"]%char ->
                              Ascii.eqb a c = false).
      { intros c Hc. specialize (Hplain c Hc). simpl in Hplain.
        apply orb_false_elim in Hplain. tauto. }
      rewrite !Hne; simpl; tauto. }
    rewrite Ha. reflexivity.
  - intros c Hc. specialize (Hplain c Hc). simpl in Hplain.
    apply orb_false_elim in Hplain. tauto.
Qed.

(** Escaping never shortens a text, and lengthens one that holds any of
    the five characters. *)
Lemma escapeHtml_grows (c : ascii) (str : string) :
  In c ["&"; "<"; ">"; quot; "'"]%char ->
  (String.length str <= String.length (escapeHtml str))%nat
  /\ (has_char c str = true ->
      (String.length str < String.length (escapeHtml str))%nat).
Proof.
  intros Hc. induction str as [|a s [IHle IHlt]]; [split; [simpl; lia|discriminate]|].
  rewrite escapeHtml_cons, string_length_app. simpl.
  assert (Ha : (1 <= String.length (escape_char a))%nat
               /\ (Ascii.eqb a c = true -> (2 <= String.length (escape_char a))%nat)).
  { simpl in Hc. destruct Hc as [<-|[<-|[<-|[<-|[<-|[]]]]]];
      destruct a as [[] [] [] [] [] [] [] []]; simpl; split;
      first [lia | discriminate]. }
  destruct Ha as [Ha1 Ha2]. split; [lia|].
  intros Hor. apply orb_prop in Hor as [Hhd|Htl].
  - specialize (Ha2 Hhd). lia.
  - specialize (IHlt Htl). lia.
Qed.

(** X3.  Escaping returns a text as it is exactly when the text holds
    none of [&], [<], [>] and the two quotes.  Any other text comes back
    strictly longer, and escaping that result once more changes it again:
    a text that was already escaped is escaped a second time. *)
Theorem escapeHtml_fixes_plain_text (str : string) :
  (escapeHtml str = str
   <-> (forall c, In c ["&"; "<"; ">"; quot; "'"]%char -> has_char c str = false))
  /\ (escapeHtml str <> str ->
      (String.length str < String.length (escapeHtml str))%nat
      /\ escapeHtml (escapeHtml str) <> escapeHtml str).
Proof.
  assert (Hfixed : escapeHtml str = str ->
            forall c, In c ["&"; "<"; ">"; quot; "'"]%char -> has_char c str = false).
  { intros Hfix c Hc.
    destruct (has_char c str) eqn:Hhas; [exfalso|reflexivity].
    destruct (escapeHtml_grows c str Hc) as [_ Hlt]. specialize (Hlt Hhas).
    rewrite Hfix in Hlt. lia. }
  split; [split; [exact Hfixed|apply escapeHtml_plain]|].
  intros Hchanged. split.
  - destruct (has_char "&" str) eqn:Hamp;
      [apply (escapeHtml_grows "&" str); [simpl; tauto|exact Hamp]|].
    destruct (has_char "<" str) eqn:Hlt;
      [apply (escapeHtml_grows "<" str); [simpl; tauto|exact Hlt]|].
    destruct (has_char ">" str) eqn:Hgt;
      [apply (escapeHtml_grows ">" str); [simpl; tauto|exact Hgt]|].
    destruct (has_char quot str) eqn:Hquot;
      [apply (escapeHtml_grows quot str); [simpl; tauto|exact Hquot]|].
    destruct (has_char "'" str) eqn:Hapos;
      [apply (escapeHtml_grows "'" str); [simpl; tauto|exact Hapos]|].
    exfalso. apply Hchanged, escapeHtml_plain.
    intros c Hc. simpl in Hc.
    destruct Hc as [<-|[<-|[<-|[<-|[<-|[]]]]]]; assumption.
  - intros Htwice. apply Hchanged.
    apply (f_equal decode_entities) in Htwice.
    rewrite !decode_escapeHtml in Htwice. exact Htwice.
Qed.

Lemma escapeHtml_fixes_plain_text_witness :
  (String.length "Tom &amp; Jerry" < String.length (escapeHtml "Tom &amp; Jerry"))%nat
  /\ escapeHtml (escapeHtml "Tom &amp; Jerry") <> escapeHtml "Tom &amp; Jerry".
Proof.
  apply (proj2 (escapeHtml_fixes_plain_text "Tom &amp; Jerry")).
  vm_compute. discriminate.
Defined.

End EscapeFacts.


(** ** main.js: the settings store across calls *)

Section StoreFacts.
Context (W : World).

Lemma write_if_other (field : option string) (k key : string)
  (f : string -> string) (m : gmap string string) :
  k <> key -> write_if field k f m !! key = m !! key.
Proof.
  intros Hne. unfold write_if. destruct (truthy_string field); [|reflexivity].
  now apply lookup_insert_ne.
Qed.

Lemma agent_testConnection_store (st : State) :
  store (snd (agent_testConnection W st)) = store st.
Proof.
  destruct (getBigQueryClient_frame W st) as (Hstore & _ & _ & _).
  cbv [agent_testConnection bind try_catch ret gets store_get getTables].
  destruct (getBigQueryClient W st) as [[bq|m] s1]; simpl in Hstore;
    cbv beta iota; [|exact Hstore].
  destruct (truthy_string (store s1 !! "datasetId")); simpl; [|exact Hstore].
  destruct (bq_getTables W (trace s1) bq _) as [tables|m]; [|exact Hstore].
  destruct (primeSchemaCache_run W bq (the_string (store s1 !! "datasetId")) tables
              (with_event (GetTables bq (the_string (store s1 !! "datasetId"))) s1))
    as (w & evs & _ & _ & _ & _ & _ & Hs & _).
  destruct (primeSchemaCache W bq _ tables _) as [[[]|m] s2]; simpl in *;
    rewrite Hs; exact Hstore.
Qed.

Lemma agent_query_store (userQuestion : string) (st : State) :
  store (snd (agent_query W userQuestion st)) = store st.
Proof.
  destruct (getBigQueryClient_frame W st) as (Hstore1 & _ & _ & _).
  cbv [agent_query bind try_catch ret throw gets store_get lift].
  destruct (getBigQueryClient W st) as [[bq|m] s1]; simpl in Hstore1;
    cbv beta iota; [|exact Hstore1].
  destruct (getGeminiClient_frame s1) as (Hstore2 & _ & _ & _).
  destruct (getGeminiClient s1) as [[ai|m] s2]; simpl in Hstore2;
    cbv beta iota; [|simpl; congruence].
  destruct (truthy_string (store s2 !! "datasetId")); simpl; [|congruence].
  destruct (ensureSchema_frame W bq (the_string (store s2 !! "datasetId")) s2)
    as (evs & _ & _ & Hstore3 & _).
  destruct (ensureSchema W bq _ s2) as [[[]|m] s3]; simpl in Hstore3;
    cbv beta iota; [|simpl; congruence].
  cbv [generateContent query]. cbv beta iota zeta.
  destruct (gemini_generateContent W (trace s3) ai _ _) as [text|m];
    cbv beta iota zeta; [|simpl; congruence].
  destruct (String.eqb (JsString.trim text) "CANNOT_ANSWER"); [simpl; congruence|].
  destruct (bq_query W _ bq (JsString.trim text)) as [rows|m];
    [destruct (map_result (serializeRow W) rows)|]; simpl; congruence.
Qed.

(** What one call may do to the store: nothing to a setting that is not
    among the written ones. *)
Lemma handle_store_frame (call : Call) (st : State) (key : string) :
  ~ In key written_keys ->
  store (snd (handle W call st)) !! key = store st !! key.
Proof.
  intros Hout. unfold written_keys in Hout. simpl in Hout.
  destruct call as [|config| | |code| |userQuestion|url]; simpl.
  - reflexivity.
  - rewrite config_save_run. simpl. unfold saved_store.
    rewrite !write_if_other; [reflexivity| | | |]; intros <-; apply Hout; auto 10.
  - cbv [auth_pickJsonFile]. run. cases; try reflexivity;
      rewrite !lookup_insert_ne; try reflexivity; intros <-; apply Hout; auto 10.
  - cbv [auth_browserLogin]. run. cases; try reflexivity;
      rewrite ?lookup_insert_ne; try reflexivity; intros <-; apply Hout; auto 10.
  - cbv [auth_submitOauthCode]. run. cases; try reflexivity;
      rewrite !lookup_insert_ne; try reflexivity; intros <-; apply Hout; auto 10.
  - now rewrite agent_testConnection_store.
  - now rewrite agent_query_store.
  - unfold shell_openExternal, bind, openExternal, modify, ret.
    destruct (JsString.startsWith url "https://"); reflexivity.
Qed.

(** X4.  Whatever calls the renderer makes, in whatever order, a setting
    other than [projectId], [datasetId], [geminiKey], [authMethod],
    [serviceAccountJson], [pendingOauthClient] and [oauthTokens] is never
    written: in particular the OAuth client id and secret that
    [auth:browserLogin] reads are set by no handler. *)
Theorem run_calls_store_frame (calls : list Call) (st : State) (key : string) :
  ~ In key written_keys ->
  store (run_calls W calls st) !! key = store st !! key.
Proof.
  intros Hout. revert st. induction calls as [|call calls IH]; intros st;
    [reflexivity|].
  simpl. rewrite IH. now apply handle_store_frame.
Qed.

Lemma truthy_string_default (o : option string) :
  JsString.nonempty (default "" o) = truthy_string o.
Proof. destruct o; reflexivity. Qed.

(** X5.  When the store holds no OAuth client id, or no client secret,
    then after any calls whatever, starting the browser sign-in answers
    [{ok: false}] with the not-configured error and does nothing: no
    browser is opened, nothing is stored, the auth method is not
    switched. *)
Theorem auth_browserLogin_never_configured (calls : list Call) (st : State) :
  truthy_string (store st !! "oauthClientId") = false
  \/ truthy_string (store st !! "oauthClientSecret") = false ->
  auth_browserLogin W (run_calls W calls st)
  = (Ok (VObject [("ok", VBool false);
                  ("error", VString oauth_not_configured_message)]),
     run_calls W calls st).
Proof.
  intros Hmissing.
  assert (Hkeep : forall key, ~ In key written_keys ->
            store (run_calls W calls st) !! key = store st !! key).
  { intros key Hout. clear Hmissing. revert st.
    induction calls as [|call calls IH]; intros st; [reflexivity|].
    simpl. rewrite IH. now apply handle_store_frame. }
  cbv [auth_browserLogin]. run. cbv beta iota.
  rewrite !truthy_string_default.
  rewrite (Hkeep "oauthClientId"), (Hkeep "oauthClientSecret");
    try (unfold written_keys; simpl; intros H;
         repeat (destruct H as [H|H]; [discriminate|]); exact H).
  destruct Hmissing as [-> | ->]; simpl; [reflexivity|].
  rewrite orb_true_r. reflexivity.
Qed.

End StoreFacts.


(** ** main.js: uploading, signing in, building clients *)

Section CredentialFacts.
Context (W : World).

(** X6.  The upload is all or nothing.  Either it answers [{ok: true}]
    with the document's [client_email]: then the user picked a file, the
    text stored under [serviceAccountJson] is the text that reading this
    file gave, that text parses to a document whose type is
    [service_account], the auth method is [serviceAccount] and the BigQuery
    client is dropped.  Or it answers [{ok: false}]: then the store and the
    BigQuery client are as they were. *)
Theorem auth_pickJsonFile_all_or_nothing (st : State) :
  (exists path raw doc email,
      chosen_file W st = Some path
      /\ fs_readFileSync W (trace st ++ [ShowOpenDialog]) path = Ok raw
      /\ JSON_parse W raw = Ok doc
      /\ declared_type doc = VString "service_account"
      /\ get_prop doc "client_email" = Ok email
      /\ fst (auth_pickJsonFile W st)
         = Ok (VObject [("ok", VBool true); ("email", email)])
      /\ store (snd (auth_pickJsonFile W st))
         = <["authMethod" := "serviceAccount"]>
             (<["serviceAccountJson" := raw]> (store st))
      /\ bigqueryClient (snd (auth_pickJsonFile W st)) = None)
  \/ (reply_ok (fst (auth_pickJsonFile W st)) = VBool false
      /\ store (snd (auth_pickJsonFile W st)) = store st
      /\ bigqueryClient (snd (auth_pickJsonFile W st)) = bigqueryClient st).
Proof.
  unfold chosen_file. cbv [auth_pickJsonFile]. run. cbv beta iota.
  destruct (dialog_showOpenDialog W (trace st)) as [canceled paths]. simpl.
  destruct canceled; [right; split_and!; reflexivity|].
  destruct paths as [|path paths]; [right; split_and!; reflexivity|]. simpl.
  destruct (fs_readFileSync W (trace st ++ [ShowOpenDialog]) path) as [raw|m] eqn:Hread;
    cbv beta iota; [|right; split_and!; reflexivity].
  destruct (JSON_parse W raw) as [doc|m] eqn:Hparse; cbv beta iota;
    [|right; split_and!; reflexivity].
  destruct (get_prop doc "type") as [ty|m] eqn:Hty; cbv beta iota;
    [|right; split_and!; reflexivity].
  destruct (negb (truthy ty) || negb (is_string ty "service_account")) eqn:Hcheck;
    cbv beta iota; [right; split_and!; reflexivity|].
  apply orb_false_elim in Hcheck as [_ Hmarker].
  apply negb_false_iff in Hmarker.
  destruct ty as [| | | | |s| | |]; try discriminate. simpl in Hmarker.
  apply String.eqb_eq in Hmarker. subst s.
  destruct doc as [| | | | | | | |props]; try discriminate.
  simpl in Hty. injection Hty as Hty. simpl.
  left. exists path, raw, (VObject props), (own_prop props "client_email").
  split_and!; try reflexivity; assumption.
Qed.

(** X7.  Submitting a code is all or nothing.  Either it answers
    [{ok: true}]: then the code, trimmed, was exchanged in the name of the
    client id and secret read from the pending client, the endpoint
    answered with tokens, the text stored under [oauthTokens] is the JSON
    text of exactly these tokens, the auth method is [browser] and the
    BigQuery client is dropped.  Or it answers [{ok: false}]: then the
    store and the BigQuery client are as they were. *)
Theorem auth_submitOauthCode_all_or_nothing (code : string) (st : State) :
  (exists pending clientId clientSecret tokens text,
      JSON_parse W (default "{}" (store st !! "pendingOauthClient")) = Ok pending
      /\ get_prop pending "clientId" = Ok clientId
      /\ get_prop pending "clientSecret" = Ok clientSecret
      /\ oauth2_getToken W (trace st) (new_OAuth2 clientId clientSecret oob)
           (JsString.trim code)
         = Ok tokens
      /\ JSON_stringify W tokens = Ok text
      /\ fst (auth_submitOauthCode W code st) = Ok (VObject [("ok", VBool true)])
      /\ store (snd (auth_submitOauthCode W code st))
         = <["authMethod" := "browser"]> (<["oauthTokens" := text]> (store st))
      /\ bigqueryClient (snd (auth_submitOauthCode W code st)) = None)
  \/ (reply_ok (fst (auth_submitOauthCode W code st)) = VBool false
      /\ store (snd (auth_submitOauthCode W code st)) = store st
      /\ bigqueryClient (snd (auth_submitOauthCode W code st)) = bigqueryClient st).
Proof.
  cbv [auth_submitOauthCode]. run. cbv beta iota.
  destruct (JSON_parse W (default "{}" (store st !! "pendingOauthClient")))
    as [pending|m] eqn:Hpending; cbv beta iota;
    [|right; split_and!; reflexivity].
  destruct (get_prop pending "clientId") as [clientId|m] eqn:Hid; cbv beta iota;
    [|right; split_and!; reflexivity].
  destruct (get_prop pending "clientSecret") as [clientSecret|m] eqn:Hsecret;
    cbv beta iota; [|right; split_and!; reflexivity].
  destruct (oauth2_getToken W (trace st) (new_OAuth2 clientId clientSecret oob)
              (JsString.trim code)) as [tokens|m] eqn:Htokens; cbv beta iota;
    [|right; split_and!; reflexivity].
  destruct (JSON_stringify W tokens) as [text|m] eqn:Htext; cbv beta iota;
    [|right; split_and!; reflexivity].
  left. exists pending, clientId, clientSecret, tokens, text.
  split_and!; try reflexivity; assumption.
Qed.

(** X8.  Both client factories build at most once and leave nothing
    behind when they fail: a client that was returned is cached and the
    next call returns it without touching the state; a call that throws
    leaves the state exactly as it was. *)
Theorem client_factories_build_once (st : State) :
  match getBigQueryClient W st with
  | (Ok bq, s1) =>
      bigqueryClient s1 = Some bq /\ getBigQueryClient W s1 = (Ok bq, s1)
  | (Throw _, s1) => s1 = st
  end
  /\ match getGeminiClient st with
     | (Ok ai, s1) =>
         geminiClient s1 = Some ai /\ getGeminiClient s1 = (Ok ai, s1)
     | (Throw _, s1) => s1 = st
     end.
Proof.
  split.
  - destruct (getBigQueryClient W st) as [[bq|m] s1] eqn:Hrun.
    + assert (Hcached : bigqueryClient s1 = Some bq).
      { revert Hrun. cbv [getBigQueryClient]. run. intros Hrun. cases; done. }
      split; [exact Hcached|].
      cbv [getBigQueryClient]. run. rewrite Hcached. reflexivity.
    + revert Hrun. cbv [getBigQueryClient]. run. intros Hrun. cases; done.
  - destruct (getGeminiClient st) as [[ai|m] s1] eqn:Hrun.
    + assert (Hcached : geminiClient s1 = Some ai).
      { revert Hrun. cbv [getGeminiClient]. run. intros Hrun. cases; done. }
      split; [exact Hcached|].
      cbv [getGeminiClient]. run. rewrite Hcached. reflexivity.
    + revert Hrun. cbv [getGeminiClient]. run. intros Hrun. cases; done.
Qed.

Lemma getBigQueryClient_project (st : State) (p : string) :
  bigqueryClient st = None ->
  store st !! "projectId" = Some p ->
  match getBigQueryClient W st with
  | (Ok bq, _) => client_projectId bq = p
  | (Throw message, _) =>
      JsString.nonempty p = false ->
      message = "No Google Cloud Project ID configured. Go to Settings."
  end.
Proof.
  intros Hnone Hproject. cbv [getBigQueryClient]. run. cbv beta iota.
  rewrite Hnone, Hproject. cbv beta iota.
  destruct (JsString.nonempty p); simpl; [|reflexivity].
  cases; first [reflexivity | discriminate].
Qed.

Lemma saved_store_projectId (config : Config.t) (m : gmap string string)
  (p : string) :
  Config.projectId config = Some p ->
  JsString.nonempty p = true ->
  saved_store config m !! "projectId" = Some (JsString.trim p).
Proof.
  intros Hp Htruthy. unfold saved_store.
  rewrite !write_if_other by discriminate.
  unfold write_if. rewrite Hp. simpl. rewrite Htruthy. simpl.
  apply lookup_insert_eq.
Qed.

(** X9.  After a save that supplies a project id, a BigQuery client can
    only be built for that project id, trimmed: the client cached before
    the save is not handed out again.  When the supplied project id is
    nothing but white space, no client can be built at all: the factory
    throws the missing-project error. *)
Theorem getBigQueryClient_after_save (config : Config.t) (st : State)
  (p : string) :
  Config.projectId config = Some p ->
  JsString.nonempty p = true ->
  match getBigQueryClient W (snd (config_save config st)) with
  | (Ok bq, _) =>
      client_projectId bq = JsString.trim p
      /\ JsString.nonempty (JsString.trim p) = true
  | (Throw message, _) =>
      JsString.nonempty (JsString.trim p) = false ->
      message = "No Google Cloud Project ID configured. Go to Settings."
  end.
Proof.
  intros Hp Htruthy.
  pose proof (getBigQueryClient_project (snd (config_save config st))
                (JsString.trim p)) as Hbuilt.
  rewrite config_save_run in *. simpl in Hbuilt.
  specialize (Hbuilt eq_refl (saved_store_projectId config _ p Hp Htruthy)).
  simpl.
  match goal with
  | |- context [getBigQueryClient W ?s] =>
      destruct (getBigQueryClient W s) as [[bq|m] s1] eqn:Hrun
  end; [|exact Hbuilt].
  split; [exact Hbuilt|].
  destruct (JsString.nonempty (JsString.trim p)) eqn:Hblank; [reflexivity|].
  exfalso. revert Hrun. cbv [getBigQueryClient]. run. cbv beta iota. simpl.
  rewrite (saved_store_projectId config _ p Hp Htruthy). cbv beta iota.
  rewrite Hblank. simpl. discriminate.
Qed.

(** X10.  An accepted upload is what the next client is built from: when
    a project id is configured, the factory called after a successful
    upload returns a client for that project, and the credentials of this
    client are the document that the text read from the picked file parses
    to, a document of type [service_account]. *)
Theorem getBigQueryClient_after_upload (st : State) (p : string) :
  rejects_empty_text W ->
  store st !! "projectId" = Some p ->
  JsString.nonempty p = true ->
  reply_ok (fst (auth_pickJsonFile W st)) = VBool true ->
  exists path raw doc,
    chosen_file W st = Some path
    /\ fs_readFileSync W (trace st ++ [ShowOpenDialog]) path = Ok raw
    /\ JSON_parse W raw = Ok doc
    /\ declared_type doc = VString "service_account"
    /\ fst (getBigQueryClient W (snd (auth_pickJsonFile W st)))
       = Ok (BigQuery_credentials p doc).
Proof.
  intros [syntax Hempty] Hproject Htruthy.
  unfold chosen_file. cbv [auth_pickJsonFile]. run. cbv beta iota.
  destruct (dialog_showOpenDialog W (trace st)) as [canceled paths]. simpl.
  destruct canceled; [discriminate|].
  destruct paths as [|path paths]; [discriminate|]. simpl.
  destruct (fs_readFileSync W (trace st ++ [ShowOpenDialog]) path) as [raw|m] eqn:Hread;
    cbv beta iota; [|discriminate].
  destruct (JSON_parse W raw) as [doc|m] eqn:Hparse; cbv beta iota;
    [|discriminate].
  destruct (get_prop doc "type") as [ty|m] eqn:Hty; cbv beta iota;
    [|discriminate].
  destruct (negb (truthy ty) || negb (is_string ty "service_account")) eqn:Hcheck;
    cbv beta iota; [discriminate|].
  apply orb_false_elim in Hcheck as [_ Hmarker].
  apply negb_false_iff in Hmarker.
  destruct ty as [| | | | |s| | |]; try discriminate. simpl in Hmarker.
  apply String.eqb_eq in Hmarker. subst s.
  destruct doc as [| | | | | | | |props]; try discriminate.
  simpl in Hty. injection Hty as Hty. simpl. intros _.
  exists path, raw, (VObject props).
  split_and!; [reflexivity|exact Hread|exact Hparse|exact Hty|].
  assert (Hraw : JsString.nonempty raw = true).
  { destruct raw; [congruence|reflexivity]. }
  cbv [getBigQueryClient]. run. simpl.
  rewrite !lookup_insert_ne by discriminate. rewrite Hproject. simpl.
  rewrite Htruthy. simpl. rewrite lookup_insert_eq. simpl.
  rewrite lookup_insert_ne by discriminate. rewrite lookup_insert_eq. simpl.
  rewrite Hraw. simpl. rewrite Hparse. reflexivity.
Qed.

(** X11.  The two halves of the browser sign-in fit together.  When the
    OAuth client id and secret are stored and the pending client survives
    being written as JSON and read back, starting the sign-in opens the
    authorization URL once and switches the auth method to [browser], and
    the code submitted next is exchanged in the name of that same client
    id and secret, with the code trimmed. *)
Theorem auth_browserLogin_then_submit (code id secret text : string)
  (st : State) :
  store st !! "oauthClientId" = Some id ->
  JsString.nonempty id = true ->
  store st !! "oauthClientSecret" = Some secret ->
  JsString.nonempty secret = true ->
  JSON_stringify W (pending_client id secret) = Ok text ->
  JSON_parse W text = Ok (pending_client id secret) ->
  new_events st (snd (auth_browserLogin W st))
  = [OpenExternal
       (oauth2_generateAuthUrl W (new_OAuth2 (VString id) (VString secret) oob))]
  /\ store (snd (auth_browserLogin W st)) !! "authMethod" = Some "browser"
  /\ new_events (snd (auth_browserLogin W st))
       (snd (auth_submitOauthCode W code (snd (auth_browserLogin W st))))
     = [GetToken (new_OAuth2 (VString id) (VString secret) oob)
                 (JsString.trim code)].
Proof.
  intros Hid Hidt Hsecret Hsecrett Htext Hparse.
  assert (Hlogin : auth_browserLogin W st
    = (Ok (VObject [("ok", VBool true);
                    ("authUrl",
                     VString (oauth2_generateAuthUrl W
                                (new_OAuth2 (VString id) (VString secret) oob)))]),
       with_store (insert "pendingOauthClient" text)
         (with_store (insert "authMethod" "browser")
            (with_event
               (OpenExternal
                  (oauth2_generateAuthUrl W
                     (new_OAuth2 (VString id) (VString secret) oob))) st)))).
  { cbv [auth_browserLogin]. run. cbv beta iota. rewrite Hid, Hsecret. simpl.
    rewrite Hidt, Hsecrett. simpl. unfold pending_client in Htext.
    rewrite Htext. reflexivity. }
  rewrite Hlogin. simpl. unfold new_events. simpl.
  split_and!.
  - apply drop_app_length.
  - rewrite lookup_insert_ne by discriminate. apply lookup_insert_eq.
  - cbv [auth_submitOauthCode]. run. simpl. rewrite lookup_insert_eq. simpl.
    rewrite Hparse. simpl.
    destruct (oauth2_getToken W _ _ _) as [tokens|m]; simpl;
      [destruct (JSON_stringify W tokens); simpl|]; apply drop_app_length.
Qed.

End CredentialFacts.

(** ** main.js: what a question and a connection test do *)

Section AgentFacts.
Context (W : World).

Lemma get_write_entries_keeps (k : string)
  (written cache : list (string * list Field.t)) :
  is_Some (JsObject.get k cache) ->
  is_Some (JsObject.get k (write_entries written cache)).
Proof.
  revert cache. induction written as [|[k' v'] written IH]; intros cache Hin;
    [exact Hin|].
  change (write_entries ((k', v') :: written) cache)
    with (write_entries written (JsObject.assign k' v' cache)).
  apply IH. unfold JsObject.assign.
  destruct (String.eqb k' "__proto__"); [exact Hin|].
  destruct (string_dec k' k) as [->|Hne].
  - rewrite get_set_eq. eauto.
  - rewrite get_set_ne by exact Hne. exact Hin.
Qed.

Lemma getBigQueryClient_keeps (c : BigQuery) (st : State) :
  bigqueryClient st = Some c ->
  getBigQueryClient W st = (Ok c, st).
Proof. intros H. cbv [getBigQueryClient]. run. rewrite H. reflexivity. Qed.

Lemma getGeminiClient_keeps (c : GoogleGenerativeAI.t) (st : State) :
  geminiClient st = Some c ->
  getGeminiClient st = (Ok c, st).
Proof. intros H. cbv [getGeminiClient]. run. rewrite H. reflexivity. Qed.

(** Step 1 of a question: the events it adds, the entries it writes. *)
Lemma ensureSchema_effects (bq : BigQuery) (datasetId : string) (st : State) :
  exists (evs : list Event) (written : list (string * list Field.t)),
    trace (snd (ensureSchema W bq datasetId st)) = trace st ++ evs
    /\ forallb is_schema_event evs = true
    /\ (tableSchemaCache st <> [] -> evs = [] /\ written = [])
    /\ tableSchemaCache (snd (ensureSchema W bq datasetId st))
       = write_entries written (tableSchemaCache st)
    /\ store (snd (ensureSchema W bq datasetId st)) = store st
    /\ bigqueryClient (snd (ensureSchema W bq datasetId st)) = bigqueryClient st
    /\ geminiClient (snd (ensureSchema W bq datasetId st)) = geminiClient st.
Proof.
  destruct (tableSchemaCache st) as [|e cache] eqn:Hcache.
  - rewrite (ensureSchema_empty W _ _ _ Hcache).
    destruct (bq_getTables W (trace st) bq datasetId) as [tables|message].
    + destruct (primeSchemaCache_run W bq datasetId tables
                  (with_event (GetTables bq datasetId) st))
        as (written & evs & _ & _ & Hw & _ & _ & Hstore & Hbq & Hai & Htrace & Hevs).
      exists (GetTables bq datasetId :: evs), written.
      rewrite Htrace, Hstore, Hbq, Hai, Hw. simpl. rewrite <- app_assoc. simpl.
      rewrite Hcache.
      split_and!; try reflexivity; [|intros Hne; congruence].
      clear - Hevs. induction evs as [|e evs IH]; simpl in *; [reflexivity|].
      apply andb_prop in Hevs as [He Hevs]. rewrite (IH Hevs).
      destruct e; try discriminate; reflexivity.
    + exists [GetTables bq datasetId], []. simpl.
      split_and!; try reflexivity; [intros Hne; congruence|].
      now rewrite Hcache.
  - rewrite ensureSchema_cached by (rewrite Hcache; discriminate).
    exists [], []. simpl. rewrite app_nil_r, Hcache.
    split_and!; try reflexivity. intros _. split; reflexivity.
Qed.

(** Everything a question does to the state. *)
Lemma agent_query_effects (userQuestion : string) (st : State) :
  exists (evs tail : list Event) (written : list (string * list Field.t)),
    trace (snd (agent_query W userQuestion st)) = trace st ++ evs ++ tail
    /\ forallb is_schema_event evs = true
    /\ (tableSchemaCache st <> [] -> evs = [] /\ written = [])
    /\ tableSchemaCache (snd (agent_query W userQuestion st))
       = write_entries written (tableSchemaCache st)
    /\ store (snd (agent_query W userQuestion st)) = store st
    /\ (forall c, bigqueryClient st = Some c ->
                  bigqueryClient (snd (agent_query W userQuestion st)) = Some c)
    /\ (forall c, geminiClient st = Some c ->
                  geminiClient (snd (agent_query W userQuestion st)) = Some c)
    /\ (tail = []
        \/ (exists ai prompt reply,
              tail = [GenerateContent ai "gemini-1.5-flash" prompt reply]
              /\ forall text, reply = Ok text ->
                              JsString.trim text = "CANNOT_ANSWER")
        \/ (exists ai prompt text bq,
              tail = [GenerateContent ai "gemini-1.5-flash" prompt (Ok text);
                      Query bq (JsString.trim text)]
              /\ JsString.trim text <> "CANNOT_ANSWER"))
    /\ exists reply, fst (agent_query W userQuestion st) = Ok reply.
Proof.
  destruct (getBigQueryClient_frame W st) as (Hs1 & Hg1 & Hc1 & Ht1).
  pose proof (fun c => getBigQueryClient_keeps c st) as Hk1.
  cbv [agent_query bind try_catch ret throw gets store_get lift].
  destruct (getBigQueryClient W st) as [[bq|m] s1] eqn:Hrun1;
    simpl in Hs1, Hg1, Hc1, Ht1; cbv beta iota.
  2:{ exists [], [], []. simpl. rewrite app_nil_r.
      split_and!; eauto.
      - intros c Hc. specialize (Hk1 c Hc). congruence.
      - intros c Hc. congruence. }
  assert (Hb1 : forall c, bigqueryClient st = Some c -> bigqueryClient s1 = Some c).
  { intros c Hc. specialize (Hk1 c Hc). congruence. }
  destruct (getGeminiClient_frame s1) as (Hs2 & Hb2 & Hc2 & Ht2).
  pose proof (fun c => getGeminiClient_keeps c s1) as Hk2.
  destruct (getGeminiClient s1) as [[ai|m] s2] eqn:Hrun2;
    simpl in Hs2, Hb2, Hc2, Ht2; cbv beta iota.
  2:{ exists [], [], []. simpl. rewrite app_nil_r.
      split_and!; eauto; try congruence.
      - intros c Hc. rewrite Hb2. auto.
      - intros c Hc. rewrite <- Hg1 in Hc. specialize (Hk2 c Hc). congruence. }
  assert (Hg2 : forall c, geminiClient st = Some c -> geminiClient s2 = Some c).
  { intros c Hc. rewrite <- Hg1 in Hc. specialize (Hk2 c Hc). congruence. }
  destruct (truthy_string (store s2 !! "datasetId")); simpl.
  2:{ exists [], [], []. simpl. rewrite app_nil_r.
      split_and!; eauto; try congruence. intros c Hc. rewrite Hb2. auto. }
  destruct (ensureSchema_effects bq (the_string (store s2 !! "datasetId")) s2)
    as (evs & written & Ht3 & Hevs & Hcached & Hc3 & Hs3 & Hb3 & Hg3).
  assert (Hcached' : tableSchemaCache st <> [] -> evs = [] /\ written = []).
  { intros Hne. apply Hcached. congruence. }
  destruct (ensureSchema W bq _ s2) as [[[]|m] s3];
    simpl in Ht3, Hc3, Hs3, Hb3, Hg3; cbv beta iota.
  2:{ exists evs, [], written. simpl. rewrite app_nil_r.
      split_and!; eauto; try congruence;
        intros c Hc; rewrite ?Hb3, ?Hg3, ?Hb2; auto. }
  cbv [generateContent query]. cbv beta iota zeta.
  remember (systemPrompt _ _ _ _) as sent eqn:Hsent. clear Hsent.
  destruct (gemini_generateContent W (trace s3) ai "gemini-1.5-flash" sent)
    as [text|m] eqn:Hreply; cbv beta iota.
  2:{ exists evs, [GenerateContent ai "gemini-1.5-flash" sent (Throw m)], written.
      simpl. split_and!; eauto; try congruence;
        try (intros c Hc; rewrite ?Hb3, ?Hg3, ?Hb2; auto; fail).
      - rewrite Ht3, Ht2, Ht1. now rewrite <- app_assoc.
      - right. left. exists ai, sent, (Throw m). split; [reflexivity|].
        intros text Htext. discriminate. }
  destruct (String.eqb (JsString.trim text) "CANNOT_ANSWER") eqn:Hsentinel.
  - exists evs, [GenerateContent ai "gemini-1.5-flash" sent (Ok text)], written.
    simpl. split_and!; eauto; try congruence;
      try (intros c Hc; rewrite ?Hb3, ?Hg3, ?Hb2; auto; fail).
    + rewrite Ht3, Ht2, Ht1. now rewrite <- app_assoc.
    + right. left. exists ai, sent, (Ok text). split; [reflexivity|].
      intros text' Htext. injection Htext as <-. now apply String.eqb_eq.
  - exists evs, [GenerateContent ai "gemini-1.5-flash" sent (Ok text);
                 Query bq (JsString.trim text)], written.
    apply String.eqb_neq in Hsentinel.
    destruct (bq_query W _ bq (JsString.trim text)) as [rows|m];
      [destruct (map_result (serializeRow W) rows)|]; simpl;
      (split_and!; eauto; try congruence;
       try (intros c Hc; rewrite ?Hb3, ?Hg3, ?Hb2; auto; fail);
       [ rewrite Ht3, Ht2, Ht1; rewrite <- !app_assoc; reflexivity
       | right; right; exists ai, sent, text, bq; split; [reflexivity|assumption] ]).
Qed.

(** Everything a connection test does to the state. *)
Lemma agent_testConnection_effects (st : State) :
  exists (evs : list Event) (written : list (string * list Field.t)),
    trace (snd (agent_testConnection W st)) = trace st ++ evs
    /\ forallb is_schema_event evs = true
    /\ tableSchemaCache (snd (agent_testConnection W st))
       = write_entries written (tableSchemaCache st)
    /\ store (snd (agent_testConnection W st)) = store st
    /\ (forall c, bigqueryClient st = Some c ->
                  bigqueryClient (snd (agent_testConnection W st)) = Some c)
    /\ geminiClient (snd (agent_testConnection W st)) = geminiClient st
    /\ exists reply, fst (agent_testConnection W st) = Ok reply.
Proof.
  destruct (getBigQueryClient_frame W st) as (Hs1 & Hg1 & Hc1 & Ht1).
  pose proof (fun c => getBigQueryClient_keeps c st) as Hk1.
  cbv [agent_testConnection bind try_catch ret gets store_get getTables].
  destruct (getBigQueryClient W st) as [[bq|m] s1] eqn:Hrun1;
    simpl in Hs1, Hg1, Hc1, Ht1; cbv beta iota.
  2:{ exists [], []. simpl. rewrite app_nil_r. split_and!; eauto.
      intros c Hc. specialize (Hk1 c Hc). congruence. }
  assert (Hb1 : forall c, bigqueryClient st = Some c -> bigqueryClient s1 = Some c).
  { intros c Hc. specialize (Hk1 c Hc). congruence. }
  destruct (truthy_string (store s1 !! "datasetId")); simpl.
  2:{ exists [], []. simpl. rewrite app_nil_r. split_and!; eauto. }
  set (d := the_string (store s1 !! "datasetId")).
  destruct (bq_getTables W (trace s1) bq d) as [tables|m].
  2:{ exists [GetTables bq d], []. simpl. rewrite Ht1. split_and!; eauto. }
  destruct (primeSchemaCache_run W bq d tables (with_event (GetTables bq d) s1))
    as (written & evs & _ & _ & Hw & _ & _ & Hs & Hb & Hg & Ht & Hevs).
  exists (GetTables bq d :: evs), written.
  assert (Hevs' : forallb is_schema_event (GetTables bq d :: evs) = true).
  { clear - Hevs. simpl. induction evs as [|e evs IH]; simpl in *; [reflexivity|].
    apply andb_prop in Hevs as [He Hevs]. rewrite (IH Hevs).
    destruct e; try discriminate; reflexivity. }
  destruct (primeSchemaCache W bq d tables _) as [[[]|m] s2];
    simpl in Hw, Hs, Hb, Hg, Ht |- *;
    (split_and!; eauto; try congruence;
     [ rewrite Ht, Ht1, <- app_assoc; reflexivity
     | intros c Hc; rewrite Hb; auto ]).
Qed.


(** X13.  Asking a question and testing the connection never throw,
    never write a setting and never drop a client: each returns a reply,
    leaves the store as it was, and a client that was cached before the
    call is cached after it. *)
Theorem agent_calls_keep_settings (call : Call) (st : State) :
  call = Invoke_agent_testConnection
  \/ (exists userQuestion, call = Invoke_agent_query userQuestion) ->
  (exists reply, fst (handle W call st) = Ok reply)
  /\ store (snd (handle W call st)) = store st
  /\ (forall c, bigqueryClient st = Some c ->
                bigqueryClient (snd (handle W call st)) = Some c)
  /\ (forall c, geminiClient st = Some c ->
                geminiClient (snd (handle W call st)) = Some c).
Proof.
  intros [->|[userQuestion ->]]; simpl.
  - destruct (agent_testConnection_effects st)
      as (evs & written & _ & _ & _ & Hs & Hb & Hg & Hr).
    split_and!; try assumption. intros c Hc. now rewrite Hg.
  - destruct (agent_query_effects userQuestion st)
      as (evs & tail & written & _ & _ & _ & _ & Hs & Hb & Hg & _ & Hr).
    split_and!; assumption.
Qed.

(** X14.  Asking a question and testing the connection never remove a
    table from the schema cache: a table that had an entry before the call
    has one after it, also when the dataset no longer lists it. *)
Theorem agent_calls_keep_cached_tables (call : Call) (st : State)
  (table : string) :
  call = Invoke_agent_testConnection
  \/ (exists userQuestion, call = Invoke_agent_query userQuestion) ->
  is_Some (JsObject.get table (tableSchemaCache st)) ->
  is_Some (JsObject.get table (tableSchemaCache (snd (handle W call st)))).
Proof.
  intros [->|[userQuestion ->]] Hin; simpl.
  - destruct (agent_testConnection_effects st)
      as (evs & written & _ & _ & Hw & _).
    rewrite Hw. now apply get_write_entries_keeps.
  - destruct (agent_query_effects userQuestion st)
      as (evs & tail & written & _ & _ & _ & Hw & _).
    rewrite Hw. now apply get_write_entries_keeps.
Qed.

(** X15.  A connection test that answers [{ok: true}] names the tables in
    the order the dataset listed them, and leaves in the schema cache, for
    every listed table (other than one named [__proto__]), an entry that a
    metadata fetch of this test answered. *)
Theorem agent_testConnection_success (st s1 : State) (bq : BigQuery)
  (datasetId : string) (tables : list Table.t) :
  getBigQueryClient W st = (Ok bq, s1) ->
  store st !! "datasetId" = Some datasetId ->
  JsString.nonempty datasetId = true ->
  bq_getTables W (trace st) bq datasetId = Ok tables ->
  reply_ok (fst (agent_testConnection W st)) = VBool true ->
  fst (agent_testConnection W st)
  = Ok (VObject [("ok", VBool true);
                 ("tables", VArray (List.map (fun t => VString (Table.id t)) tables))])
  /\ forall t, In t tables -> Table.id t <> "__proto__" ->
       exists fields,
         JsObject.get (Table.id t) (tableSchemaCache (snd (agent_testConnection W st)))
         = Some fields
         /\ fetched W bq datasetId (Table.id t, fields).
Proof.
  intros Hbq Hdataset Hnonempty Htables.
  rewrite (agent_testConnection_run W st s1 bq datasetId Hbq Hdataset Hnonempty).
  rewrite Htables. cbv zeta.
  destruct (primeSchemaCache_run W bq datasetId tables
              (with_event (GetTables bq datasetId) s1))
    as (written & evs & Hkeys & Hfetched & Hw & Hok & _).
  destruct (primeSchemaCache W bq datasetId tables _) as [[[]|m] s2];
    simpl in Hw, Hok |- *; [|discriminate].
  intros _. split; [reflexivity|].
  intros t Ht Hname. specialize (Hok eq_refl).
  rewrite Hok, firstn_all in Hkeys.
  assert (Hin : In (Table.id t) (List.map fst written)).
  { rewrite Hkeys. now apply in_map. }
  rewrite Hw.
  destruct (get_write_entries_listed (Table.id t) written
              (tableSchemaCache s1) Hin Hname) as (fields & Hf & Hget).
  exists fields. split; [exact Hget|].
  rewrite List.Forall_forall in Hfetched. exact (Hfetched _ Hf).
Qed.

(** X16.  A connection test needs the BigQuery client and the dataset
    only.  When the client is there and no dataset is configured it
    answers [{ok: false}] with the no-dataset error and calls nothing;
    no Gemini key is asked for. *)
Theorem agent_testConnection_without_dataset (st s1 : State) (bq : BigQuery) :
  getBigQueryClient W st = (Ok bq, s1) ->
  truthy_string (store st !! "datasetId") = false ->
  agent_testConnection W st
  = (Ok (VObject [("ok", VBool false);
                  ("error", VString "No BigQuery dataset configured. Go to Settings.")]),
     s1)
  /\ new_events st s1 = [].
Proof.
  intros Hbq Hdataset.
  destruct (getBigQueryClient_frame W st) as (Hs1 & _ & _ & Ht1).
  rewrite Hbq in Hs1, Ht1. simpl in Hs1, Ht1.
  cbv [agent_testConnection bind try_catch ret gets store_get].
  rewrite Hbq. cbv beta iota. rewrite Hs1, Hdataset. simpl.
  split; [reflexivity|]. unfold new_events. rewrite Ht1. apply drop_all.
Qed.

End AgentFacts.

(** ** main.js: rows and prompts *)

Section RowFacts.
Context (W : World).

Lemma insert_index_perm {V : Type} (e : N * (string * V))
  (l : list (N * (string * V))) :
  Permutation (JsObject.insert_index e l) (e :: l).
Proof.
  induction l as [|e' l IH]; simpl; [reflexivity|].
  destruct (fst e <=? fst e')%N; [reflexivity|].
  rewrite IH. apply perm_swap.
Qed.

(** [Object.entries] lists every own property once. *)
Lemma entries_perm {V : Type} (o : list (string * V)) :
  Permutation (JsObject.entries o) o.
Proof.
  unfold JsObject.entries. induction o as [|[k v] o IH]; simpl; [reflexivity|].
  destruct (JsObject.array_index k) as [n|].
  - rewrite insert_index_perm. simpl. now rewrite IH.
  - rewrite <- Permutation_middle. now rewrite IH.
Qed.

Lemma get_Some_In {V : Type} (k : string) (v : V) (o : list (string * V)) :
  JsObject.get k o = Some v -> In (k, v) o.
Proof.
  induction o as [|[k' v'] o IH]; simpl; [discriminate|].
  destruct (String.eqb k' k) eqn:E.
  - apply String.eqb_eq in E. subst k'. intros [= ->]. now left.
  - intros H. right. now apply IH.
Qed.

Lemma In_get_Some {V : Type} (k : string) (v : V) (o : list (string * V)) :
  List.NoDup (List.map fst o) -> In (k, v) o -> JsObject.get k o = Some v.
Proof.
  induction o as [|[k' v'] o IH]; simpl; intros Hnodup Hin; [destruct Hin|].
  inversion Hnodup as [|? ? Hfresh Hrest]; subst.
  destruct Hin as [[= -> ->]|Hin].
  - now rewrite String.eqb_refl.
  - destruct (String.eqb k' k) eqn:E.
    + apply String.eqb_eq in E. subst k'. exfalso. apply Hfresh.
      change k with (fst (k, v)). now apply in_map.
    + now apply IH.
Qed.

Lemma get_entries {V : Type} (k : string) (o : list (string * V)) :
  List.NoDup (List.map fst o) ->
  JsObject.get k (JsObject.entries o) = JsObject.get k o.
Proof.
  intros Hnodup.
  assert (Hnodup' : List.NoDup (List.map fst (JsObject.entries o))).
  { eapply Permutation_NoDup; [|exact Hnodup].
    apply Permutation_map. symmetry. apply entries_perm. }
  destruct (JsObject.get k o) as [v|] eqn:Hget.
  - apply In_get_Some; [exact Hnodup'|].
    eapply Permutation_in; [symmetry; apply entries_perm|].
    now apply get_Some_In.
  - destruct (JsObject.get k (JsObject.entries o)) as [v|] eqn:Hget'; [|reflexivity].
    apply get_Some_In in Hget'.
    eapply Permutation_in in Hget'; [|apply entries_perm].
    apply (In_get_Some _ _ _ Hnodup) in Hget'. congruence.
Qed.

Lemma set_fresh {V : Type} (k : string) (v : V) (o : list (string * V)) :
  ~ In k (List.map fst o) -> JsObject.set k v o = o ++ [(k, v)].
Proof.
  induction o as [|[k' v'] o IH]; simpl; intros Hfresh; [reflexivity|].
  destruct (String.eqb k' k) eqn:E.
  - apply String.eqb_eq in E. subst k'. tauto.
  - rewrite IH by tauto. reflexivity.
Qed.

Lemma fold_set_fresh {V : Type} (es acc : list (string * V)) :
  List.NoDup (List.map fst (acc ++ es)) ->
  fold_left (fun o e => JsObject.set (fst e) (snd e) o) es acc = acc ++ es.
Proof.
  revert acc. induction es as [|[k v] es IH]; intros acc Hnodup; simpl.
  - now rewrite app_nil_r.
  - assert (Hfresh : ~ In k (List.map fst acc)).
    { rewrite map_app in Hnodup. simpl in Hnodup.
      apply NoDup_remove_2 in Hnodup. intros Hin. apply Hnodup.
      apply in_or_app. now left. }
    rewrite (set_fresh k v acc Hfresh).
    rewrite IH; rewrite <- app_assoc; [reflexivity|exact Hnodup].
Qed.

(** [Object.fromEntries] of entries with distinct keys has exactly those
    properties, in that order. *)
Lemma fromEntries_distinct {V : Type} (es : list (string * V)) :
  List.NoDup (List.map fst es) -> JsObject.fromEntries es = es.
Proof. intros H. unfold JsObject.fromEntries. now rewrite fold_set_fresh. Qed.

Lemma map_result_entries (es : list (string * JsVal))
  (out : list (string * JsVal)) :
  map_result
    (fun kv => result_map (fun v' => (fst kv, v')) (serializeValue W (snd kv))) es
  = Ok out ->
  List.map fst out = List.map fst es
  /\ forall k,
       match JsObject.get k es with
       | Some v =>
           exists v', serializeValue W v = Ok v' /\ JsObject.get k out = Some v'
       | None => JsObject.get k out = None
       end.
Proof.
  revert out. induction es as [|[k0 v0] es IH]; intros out; simpl.
  - intros [= <-]. split; [reflexivity|]. intros k. reflexivity.
  - destruct (serializeValue W v0) as [v0'|m] eqn:Hv0; simpl; [|discriminate].
    destruct (map_result _ es) as [rest|m]; [|discriminate].
    intros [= <-]. destruct (IH rest eq_refl) as [Hkeys Hget].
    split; [simpl; now rewrite Hkeys|].
    intros k. simpl. destruct (String.eqb k0 k).
    + exists v0'. split; [exact Hv0|reflexivity].
    + apply Hget.
Qed.

(** X17.  Normalizing a row keeps its columns: when [serializeRow]
    returns, the object it returns has a property for exactly the keys of
    the row, and the value under each key is the normalized value the row
    had there.  So every column name taken from the first row can be
    looked up in its serialized form. *)
Theorem serializeRow_keeps_columns (row out : list (string * JsVal))
  (k : string) :
  List.NoDup (List.map fst row) ->
  serializeRow W row = Ok (VObject out) ->
  match JsObject.get k row with
  | Some v =>
      In k (JsObject.keys row)
      /\ exists v', serializeValue W v = Ok v' /\ JsObject.get k out = Some v'
  | None => ~ In k (JsObject.keys row) /\ JsObject.get k out = None
  end.
Proof.
  intros Hnodup. unfold serializeRow.
  destruct (map_result _ (JsObject.entries row)) as [es|m] eqn:Hmap;
    simpl; [|discriminate].
  intros [= <-].
  destruct (map_result_entries _ _ Hmap) as [Hkeys Hget].
  assert (Hnodup' : List.NoDup (List.map fst es)).
  { rewrite Hkeys. eapply Permutation_NoDup; [|exact Hnodup].
    apply Permutation_map. symmetry. apply entries_perm. }
  rewrite (fromEntries_distinct es Hnodup').
  specialize (Hget k). rewrite (get_entries k row Hnodup) in Hget.
  destruct (JsObject.get k row) as [v|] eqn:Hrow.
  - split; [|exact Hget].
    unfold JsObject.keys.
    apply get_Some_In in Hrow.
    eapply Permutation_in in Hrow; [|symmetry; apply entries_perm].
    change k with (fst (k, v)). now apply in_map.
  - split; [|exact Hget].
    unfold JsObject.keys. intros Hin. apply in_map_iff in Hin as ([k' v] & Hk & Hin).
    simpl in Hk. subst k'.
    eapply Permutation_in in Hin; [|apply entries_perm].
    apply (In_get_Some _ _ _ Hnodup) in Hin. congruence.
Qed.

End RowFacts.

Section PromptFacts.

Lemma startsWith_app_l (x y needle : string) :
  JsString.startsWith x needle = true ->
  JsString.startsWith (x ++ y)%string needle = true.
Proof.
  revert x. induction needle as [|a needle IH]; intros x.
  { intros _. destruct x; simpl; [destruct y|]; reflexivity. }
  destruct x as [|b x]; simpl; [discriminate|].
  intros H. apply andb_prop in H as [Hab Hrest].
  rewrite Hab. now apply IH.
Qed.

Lemma startsWith_self (needle y : string) :
  JsString.startsWith (needle ++ y)%string needle = true.
Proof.
  induction needle as [|a needle IH]; [destruct y; reflexivity|].
  change (Ascii.eqb a a && JsString.startsWith (needle ++ y)%string needle = true).
  now rewrite Ascii.eqb_refl.
Qed.

Lemma includes_cons (a : ascii) (s needle : string) :
  JsString.includes (String a s) needle
  = JsString.startsWith (String a s) needle || JsString.includes s needle.
Proof. reflexivity. Qed.

Lemma includes_app_l (x y needle : string) :
  JsString.includes x needle = true ->
  JsString.includes (x ++ y)%string needle = true.
Proof.
  induction x as [|a x IH].
  - intros H. destruct needle; [|discriminate].
    destruct y; reflexivity.
  - rewrite includes_cons. intros H.
    change (String a x ++ y)%string with (String a (x ++ y)%string).
    rewrite includes_cons. apply orb_prop in H as [H|H].
    + change (String a (x ++ y)%string) with (String a x ++ y)%string.
      now rewrite (startsWith_app_l (String a x) y needle H).
    + rewrite (IH H). apply orb_true_r.
Qed.

Lemma includes_app_r (x y needle : string) :
  JsString.includes y needle = true ->
  JsString.includes (x ++ y)%string needle = true.
Proof.
  intros H. induction x as [|a x IH]; [exact H|].
  change (String a x ++ y)%string with (String a (x ++ y)%string).
  rewrite includes_cons, IH. apply orb_true_r.
Qed.

Lemma includes_self (needle y : string) :
  JsString.includes (needle ++ y)%string needle = true.
Proof.
  destruct needle as [|a needle]; [destruct y; reflexivity|].
  change (String a needle ++ y)%string with (String a (needle ++ y)%string).
  rewrite includes_cons.
  change (String a (needle ++ y)%string) with (String a needle ++ y)%string.
  now rewrite startsWith_self.
Qed.

Lemma includes_self_nil (needle : string) :
  JsString.includes needle needle = true.
Proof.
  assert (Hnil : forall s : string, (s ++ "")%string = s).
  { induction s as [|c s IH]; [reflexivity|].
    change (String c (s ++ "")%string = String c s). now rewrite IH. }
  pose proof (includes_self needle "") as H. now rewrite Hnil in H.
Qed.

Lemma includes_concat (sep : string) (l : list string) (e needle : string) :
  In e l ->
  JsString.includes e needle = true ->
  JsString.includes (String.concat sep l) needle = true.
Proof.
  intros Hin He. induction l as [|x l IH]; [destruct Hin|].
  destruct l as [|x' l].
  - destruct Hin as [->|[]]. exact He.
  - change (String.concat sep (x :: x' :: l))
      with (x ++ sep ++ String.concat sep (x' :: l))%string.
    destruct Hin as [->|Hin].
    + now apply includes_app_l.
    + apply includes_app_r, includes_app_r. now apply IH.
Qed.

(** X18.  The prompt names every cached table and every column of it:
    for each entry of the schema cache the prompt holds the line
    [Table: `project.dataset.table`], and for each field of the entry the
    line made of its name and, in brackets, its type.  No cached table is
    left out, whatever the order of the entries. *)
Theorem systemPrompt_names_cached_tables (projectId : option string)
  (datasetId userQuestion table : string) (fields : list Field.t)
  (cache : list (string * list Field.t)) :
  In (table, fields) cache ->
  JsString.includes
    (systemPrompt projectId datasetId (schemaText projectId datasetId cache)
       userQuestion)
    ("Table: `" ++ template projectId ++ "." ++ datasetId ++ "." ++ table ++ "`")
  = true
  /\ forall f, In f fields ->
       JsString.includes
         (systemPrompt projectId datasetId (schemaText projectId datasetId cache)
            userQuestion)
         ("  " ++ Field.name f ++ " (" ++ Field.type f ++ ")")
       = true.
Proof.
  intros Hin.
  assert (Hentry : In (table, fields) (JsObject.entries cache)).
  { eapply Permutation_in; [symmetry; apply entries_perm|exact Hin]. }
  assert (Hschema : forall needle,
    JsString.includes
      ("Table: `" ++ template projectId ++ "." ++ datasetId ++ "." ++ table
         ++ "`" ++ nl
         ++ String.concat nl
              (List.map (fun f => ("  " ++ Field.name f ++ " (" ++ Field.type f ++ ")")%string)
                 fields))%string needle = true ->
    JsString.includes
      (systemPrompt projectId datasetId (schemaText projectId datasetId cache)
         userQuestion) needle = true).
  { intros needle Hblock. unfold systemPrompt.
    apply includes_app_r, includes_app_l. unfold schemaText.
    eapply includes_concat; [|exact Hblock].
    apply in_map_iff. exists (table, fields). split; [reflexivity|exact Hentry]. }
  split.
  - apply Hschema.
    rewrite <- !string_app_assoc.
    rewrite (string_app_assoc _ nl). apply includes_app_l.
    rewrite !string_app_assoc. apply includes_self_nil.
  - intros f Hf. apply Hschema.
    do 7 apply includes_app_r.
    eapply includes_concat.
    + apply in_map_iff. exists f. split; [reflexivity|exact Hf].
    + apply includes_self_nil.
Qed.

End PromptFacts.


(** ** main.js: saving and loading the configuration *)

Section ConfigFacts.
Context (W : World).

Lemma write_if_lookup (field : option string) (k key : string)
  (f : string -> string) (m : gmap string string) :
  write_if field k f m !! key
  = if decide (k = key)
    then (if truthy_string field then Some (f (the_string field)) else m !! key)
    else m !! key.
Proof.
  unfold write_if. destruct (truthy_string field).
  - rewrite lookup_insert. destruct (decide (k = key)); reflexivity.
  - destruct (decide (k = key)); reflexivity.
Qed.

(** X19.  Saving the same form twice is saving it once: the second save
    leaves the store, the clients, the cache and the trace exactly as the
    first one left them. *)
Theorem config_save_idempotent (config : Config.t) (st : State) :
  config_save config (snd (config_save config st)) = config_save config st.
Proof.
  rewrite !config_save_run. simpl. f_equal. f_equal.
  apply map_eq. intros key. unfold saved_store.
  rewrite !write_if_lookup.
  repeat case_decide; subst; try discriminate;
    repeat match goal with
           | |- context [truthy_string ?x] => destruct (truthy_string x)
           end; reflexivity.
Qed.

(** X20.  What is saved is what is loaded.  For every setting that a save
    supplies with a non-empty value, a load right after the save reports
    that value, trimmed for the project id, the dataset and the Gemini key
    and as it is for the auth method; the load itself changes nothing. *)
Theorem config_load_after_save (config : Config.t) (st : State)
  (key v : string) :
  In (key, Some v) (supplied config) ->
  JsString.nonempty v = true ->
  (exists props,
      fst (config_load (snd (config_save config st))) = Ok (VObject props)
      /\ own_prop props key = loaded_value key v)
  /\ snd (config_load (snd (config_save config st))) = snd (config_save config st).
Proof.
  intros Hin Htruthy. rewrite config_save_run. simpl.
  split; [|reflexivity].
  cbv [config_load bind ret gets store_get store_get_default]. simpl.
  eexists. split; [reflexivity|].
  unfold supplied in Hin. simpl in Hin. unfold saved_store, loaded_value.
  rewrite !write_if_lookup.
  destruct Hin as [H|[H|[H|[H|[]]]]]; injection H as <- Hv;
    simpl; repeat case_decide; try congruence;
    rewrite Hv; simpl; rewrite Htruthy; reflexivity.
Qed.

(** X21.  The BigQuery factory reads only the settings of the active auth
    method.  Two states without a cached client that agree on the project
    id, the auth method and the settings of that method get the same
    client or the same error, whatever else their stores hold: a stale key
    file does not matter to the browser method, stale tokens do not matter
    to the service-account method, and neither matters to the fallback. *)
Theorem getBigQueryClient_reads_active_method (st st' : State) :
  bigqueryClient st = None ->
  bigqueryClient st' = None ->
  (forall key,
      In key ("projectId" :: "authMethod"
                :: credential_keys (default "serviceAccount" (store st !! "authMethod"))) ->
      store st !! key = store st' !! key) ->
  fst (getBigQueryClient W st) = fst (getBigQueryClient W st').
Proof.
  intros Hnone Hnone' Hagree.
  pose proof (Hagree "projectId" (or_introl eq_refl)) as Hproject.
  pose proof (Hagree "authMethod" (or_intror (or_introl eq_refl))) as Hmethod.
  cbv [getBigQueryClient]. run. cbv beta iota.
  rewrite Hnone, Hnone', <- Hproject, <- Hmethod. cbv beta iota.
  destruct (store st !! "projectId") as [p|]; [|reflexivity].
  destruct (JsString.nonempty p); simpl; [|reflexivity].
  unfold credential_keys in Hagree.
  destruct (String.eqb (default "serviceAccount" (store st !! "authMethod"))
              "serviceAccount") eqn:Hsa.
  - rewrite <- (Hagree "serviceAccountJson") by (simpl; tauto).
    destruct (truthy_string (store st !! "serviceAccountJson")); simpl;
      [|reflexivity].
    destruct (JSON_parse W _); reflexivity.
  - destruct (String.eqb (default "serviceAccount" (store st !! "authMethod"))
                "browser") eqn:Hbrowser; [|reflexivity].
    rewrite <- (Hagree "oauthTokens") by (simpl; tauto).
    destruct (truthy_string (store st !! "oauthTokens")); simpl; [|reflexivity].
    rewrite <- (Hagree "pendingOauthClient") by (simpl; tauto).
    destruct (JSON_parse W (default "{}" _)) as [pending|m]; simpl; [|reflexivity].
    destruct (get_prop pending "clientId"); simpl; [|reflexivity].
    destruct (get_prop pending "clientSecret"); simpl; [|reflexivity].
    destruct (JSON_parse W (the_string _)); reflexivity.
Qed.

End ConfigFacts.

(** ** The properties above on a concrete session *)

Lemma run_calls_store_frame_witness :
  store (run_calls Scenario.signing_in Scenario.session Scenario.installed)
    !! "oauthClientId" = None.
Proof.
  rewrite (run_calls_store_frame Scenario.signing_in Scenario.session
             Scenario.installed "oauthClientId").
  - vm_compute. reflexivity.
  - simpl. intros H. repeat (destruct H as [H|H]; [discriminate|]). exact H.
Defined.

Lemma auth_browserLogin_never_configured_witness :
  fst (auth_browserLogin Scenario.signing_in
         (run_calls Scenario.signing_in Scenario.session Scenario.installed))
  = Ok (VObject [("ok", VBool false);
                 ("error", VString oauth_not_configured_message)]).
Proof.
  rewrite (auth_browserLogin_never_configured Scenario.signing_in
             Scenario.session Scenario.installed).
  - reflexivity.
  - left. vm_compute. reflexivity.
Defined.

Lemma getBigQueryClient_after_save_witness :
  match getBigQueryClient Scenario.signing_in
          (snd (config_save
                  {| Config.projectId := Some "  acme-2 "; Config.datasetId := None;
                     Config.geminiKey := None; Config.authMethod := None |}
                  (Example.state [("projectId", "acme"); ("authMethod", "apiKey")]
                     (Some (BigQuery_ambient "acme")) [])))
  with
  | (Ok bq, _) =>
      client_projectId bq = JsString.trim "  acme-2 "
      /\ JsString.nonempty (JsString.trim "  acme-2 ") = true
  | (Throw message, _) =>
      JsString.nonempty (JsString.trim "  acme-2 ") = false ->
      message = "No Google Cloud Project ID configured. Go to Settings."
  end.
Proof.
  exact (getBigQueryClient_after_save Scenario.signing_in
           {| Config.projectId := Some "  acme-2 "; Config.datasetId := None;
              Config.geminiKey := None; Config.authMethod := None |}
           (Example.state [("projectId", "acme"); ("authMethod", "apiKey")]
              (Some (BigQuery_ambient "acme")) [])
           "  acme-2 " eq_refl eq_refl).
Defined.

Lemma getBigQueryClient_after_upload_witness :
  exists path raw doc,
    chosen_file (Example.upload Example.key_file) Scenario.installed = Some path
    /\ fs_readFileSync (Example.upload Example.key_file)
         (trace Scenario.installed ++ [ShowOpenDialog]) path
       = Ok raw
    /\ JSON_parse (Example.upload Example.key_file) raw = Ok doc
    /\ declared_type doc = VString "service_account"
    /\ fst (getBigQueryClient (Example.upload Example.key_file)
              (snd (auth_pickJsonFile (Example.upload Example.key_file)
                      Scenario.installed)))
       = Ok (BigQuery_credentials "acme" doc).
Proof.
  apply getBigQueryClient_after_upload.
  - exists "Unexpected token". reflexivity.
  - vm_compute. reflexivity.
  - reflexivity.
  - vm_compute. reflexivity.
Defined.

Lemma auth_browserLogin_then_submit_witness :
  new_events
    (snd (auth_browserLogin Scenario.signing_in Scenario.with_oauth_client))
    (snd (auth_submitOauthCode Scenario.signing_in " 4/0AX4XfWh "
            (snd (auth_browserLogin Scenario.signing_in
                    Scenario.with_oauth_client))))
  = [GetToken (new_OAuth2 (VString "id-1") (VString "s3cret") oob) "4/0AX4XfWh"].
Proof.
  exact (proj2 (proj2
           (auth_browserLogin_then_submit Scenario.signing_in " 4/0AX4XfWh "
              "id-1" "s3cret" Scenario.pending_text Scenario.with_oauth_client
              eq_refl eq_refl eq_refl eq_refl eq_refl eq_refl))).
Defined.

Lemma agent_calls_keep_settings_witness :
  store (snd (agent_testConnection Scenario.signing_in Scenario.installed))
  = store Scenario.installed.
Proof.
  exact (proj1 (proj2 (agent_calls_keep_settings Scenario.signing_in
                         Invoke_agent_testConnection Scenario.installed
                         (or_introl eq_refl)))).
Defined.

Lemma agent_calls_keep_cached_tables_witness :
  is_Some
    (JsObject.get "dropped_table"
       (tableSchemaCache
          (snd (agent_testConnection Scenario.signing_in
                  (Example.state [("projectId", "acme"); ("datasetId", "pbx");
                                  ("authMethod", "apiKey")]
                     None [("dropped_table", [])]))))).
Proof.
  apply (agent_calls_keep_cached_tables Scenario.signing_in
           Invoke_agent_testConnection
           (Example.state [("projectId", "acme"); ("datasetId", "pbx");
                           ("authMethod", "apiKey")]
              None [("dropped_table", [])])
           "dropped_table" (or_introl eq_refl)).
  exists []. reflexivity.
Defined.

Lemma agent_testConnection_success_witness :
  fst (agent_testConnection Scenario.signing_in Scenario.installed)
  = Ok (VObject [("ok", VBool true); ("tables", VArray [VString "calls"])]).
Proof.
  exact (proj1
           (agent_testConnection_success Scenario.signing_in Scenario.installed
              (snd (getBigQueryClient Scenario.signing_in Scenario.installed))
              (BigQuery_ambient "acme") "pbx" [Example.calls]
              eq_refl eq_refl eq_refl eq_refl eq_refl)).
Defined.

Lemma agent_testConnection_without_dataset_witness :
  fst (agent_testConnection Scenario.signing_in
         (Example.state [("projectId", "acme"); ("authMethod", "apiKey")] None []))
  = Ok (VObject [("ok", VBool false);
                 ("error", VString "No BigQuery dataset configured. Go to Settings.")]).
Proof.
  rewrite (proj1
             (agent_testConnection_without_dataset Scenario.signing_in
                (Example.state [("projectId", "acme"); ("authMethod", "apiKey")] None [])
                (snd (getBigQueryClient Scenario.signing_in
                        (Example.state [("projectId", "acme"); ("authMethod", "apiKey")]
                           None [])))
                (BigQuery_ambient "acme") eq_refl eq_refl)).
  reflexivity.
Defined.

Lemma serializeRow_keeps_columns_witness :
  In "calls" (JsObject.keys [("queue", VString "sales"); ("calls", VBigInt 42%Z)])
  /\ exists v',
       serializeValue Scenario.signing_in (VBigInt 42%Z) = Ok v'
       /\ JsObject.get "calls"
            [("queue", VString "sales"); ("calls", VNumber (Number_of_BigInt 42%Z))]
          = Some v'.
Proof.
  apply (serializeRow_keeps_columns Scenario.signing_in
           [("queue", VString "sales"); ("calls", VBigInt 42%Z)]
           [("queue", VString "sales"); ("calls", VNumber (Number_of_BigInt 42%Z))]
           "calls").
  - repeat (apply List.NoDup_cons;
            [simpl; intros H; repeat (destruct H as [H|H]; [discriminate|]); exact H|]).
    apply List.NoDup_nil.
  - vm_compute. reflexivity.
Defined.

Lemma systemPrompt_names_cached_tables_witness :
  JsString.includes
    (systemPrompt (Some "acme") "pbx"
       (schemaText (Some "acme") "pbx" [("calls", Example.calls_fields)])
       "How many calls?")
    "Table: `acme.pbx.calls`" = true.
Proof.
  exact (proj1 (systemPrompt_names_cached_tables (Some "acme") "pbx"
                  "How many calls?" "calls" Example.calls_fields
                  [("calls", Example.calls_fields)] (or_introl eq_refl))).
Defined.

Lemma config_load_after_save_witness :
  exists props,
    fst (config_load
           (snd (config_save
                   {| Config.projectId := Some " acme "; Config.datasetId := None;
                      Config.geminiKey := None; Config.authMethod := None |}
                   Scenario.installed)))
    = Ok (VObject props)
    /\ own_prop props "projectId" = VString "acme".
Proof.
  exact (proj1 (config_load_after_save
                  {| Config.projectId := Some " acme "; Config.datasetId := None;
                     Config.geminiKey := None; Config.authMethod := None |}
                  Scenario.installed "projectId" " acme "
                  (or_introl eq_refl) eq_refl)).
Defined.

Lemma getBigQueryClient_reads_active_method_witness :
  fst (getBigQueryClient (Example.upload Example.key_file)
         (Example.state [("projectId", "acme");
                         ("serviceAccountJson", Example.key_file)] None []))
  = fst (getBigQueryClient (Example.upload Example.key_file)
           (Example.state [("projectId", "acme");
                           ("serviceAccountJson", Example.key_file);
                           ("oauthTokens", "stale"); ("datasetId", "pbx")] None [])).
Proof.
  apply getBigQueryClient_reads_active_method; try reflexivity.
  intros key Hkey. simpl in Hkey.
  destruct Hkey as [<-|[<-|[<-|[]]]]; vm_compute; reflexivity.
Defined.


(** ** main.js: the SQL that is reported, the URLs that are opened *)

Section ReportFacts.
Context (W : World).

(** X22.  The SQL a question reports is the SQL it ran.  A reply that
    carries an SQL text is an [{ok: true}] reply, and the last thing the
    call did was to run exactly that text on the warehouse.  A reply that
    is [{ok: false}] carries no SQL, also when a query was attempted and
    failed. *)
Theorem agent_query_reports_executed_sql (userQuestion : string) (st : State) :
  (reply_ok (fst (agent_query W userQuestion st)) = VBool false ->
   reply_sql (fst (agent_query W userQuestion st)) = VNull)
  /\ (forall sql,
        reply_sql (fst (agent_query W userQuestion st)) = VString sql ->
        reply_ok (fst (agent_query W userQuestion st)) = VBool true
        /\ exists evs bq,
             new_events st (snd (agent_query W userQuestion st))
             = evs ++ [Query bq sql]).
Proof.
  destruct (getBigQueryClient_frame W st) as (_ & _ & _ & Ht1).
  unfold new_events.
  cbv [agent_query bind try_catch ret throw gets store_get lift].
  destruct (getBigQueryClient W st) as [[bq|m] s1]; simpl in Ht1; cbv beta iota.
  2:{ simpl. split; [reflexivity|]. intros sql H. discriminate. }
  destruct (getGeminiClient_frame s1) as (_ & _ & _ & Ht2).
  destruct (getGeminiClient s1) as [[ai|m] s2]; simpl in Ht2; cbv beta iota.
  2:{ simpl. split; [reflexivity|]. intros sql H. discriminate. }
  destruct (truthy_string (store s2 !! "datasetId")); simpl.
  2:{ split; [reflexivity|]. intros sql H. discriminate. }
  destruct (ensureSchema_frame W bq (the_string (store s2 !! "datasetId")) s2)
    as (evs & Ht3 & _).
  destruct (ensureSchema W bq _ s2) as [[[]|m] s3]; simpl in Ht3; cbv beta iota.
  2:{ simpl. split; [reflexivity|]. intros sql H. discriminate. }
  cbv [generateContent query]. cbv beta iota zeta.
  remember (systemPrompt _ _ _ _) as sent eqn:Hsent. clear Hsent.
  destruct (gemini_generateContent W (trace s3) ai "gemini-1.5-flash" sent)
    as [text|m]; cbv beta iota.
  2:{ simpl. split; [reflexivity|]. intros sql H. discriminate. }
  destruct (String.eqb (JsString.trim text) "CANNOT_ANSWER").
  { simpl. split; [discriminate|]. intros sql H. discriminate. }
  destruct (bq_query W _ bq (JsString.trim text)) as [rows|m];
    [destruct (map_result (serializeRow W) rows)|]; simpl;
    (split; [try reflexivity; discriminate|]); intros sql H; try discriminate.
  injection H as <-. split; [reflexivity|].
  exists (evs ++ [GenerateContent ai "gemini-1.5-flash" sent (Ok text)]), bq.
  rewrite Ht3, Ht2, Ht1, <- !app_assoc. apply drop_app_length.
Qed.




End ReportFacts.

Lemma agent_query_reports_executed_sql_witness :
  reply_ok (fst (agent_query Scenario.signing_in "How many calls?" Scenario.installed))
  = VBool true
  /\ exists evs bq,
       new_events Scenario.installed
         (snd (agent_query Scenario.signing_in "How many calls?" Scenario.installed))
       = evs ++ [Query bq "SELECT 1"].
Proof.
  exact (proj2 (agent_query_reports_executed_sql Scenario.signing_in
                  "How many calls?" Scenario.installed)
           "SELECT 1" eq_refl).
Defined.

